(** * Digilent HDMI DRM driver (drivers/gpu/drm/xlnx/digilent_hdmi_*.c)

    A shallow embedding of the driver's callbacks.  Every driver function is a
    computation over [digilent_hdmi_private] that also records, in order, the
    calls it makes into the rest of the kernel (clock framework, DMA engine,
    timing bridge, device tree, DRM core).  Integer arithmetic is the C
    arithmetic of the source: 32-bit [int] and [unsigned int], and a [size_t]
    and [dma_addr_t] whose width depends on the platform. *)

From Stdlib Require Import ZArith List Bool String Lia.
Import ListNotations.
Local Open Scope Z_scope.

(** ** C integers *)

Module C.

(** Width of the platform dependent types ([size_t], [dma_addr_t]). *)
Inductive width : Type := w32 | w64.

Definition bits (w : width) : Z :=
  match w with w32 => 32 | w64 => 64 end.

(** Conversion to an unsigned type of [n] bits. *)
Definition to_unsigned (n x : Z) : Z := x mod 2 ^ n.

(** Conversion to a signed type of [n] bits (two's complement). *)
Definition to_signed (n x : Z) : Z :=
  (x + 2 ^ (n - 1)) mod 2 ^ n - 2 ^ (n - 1).

Definition to_uint : Z -> Z := to_unsigned 32.
Definition to_int : Z -> Z := to_signed 32.
Definition to_word (w : width) : Z -> Z := to_unsigned (bits w).

(** Division of two [int] values truncates toward zero.  The result is
    [None] where C leaves the division undefined: a zero divisor, and
    [INT_MIN / -1], whose quotient is not an [int].  What a machine does
    with such a division (a trap, or some quotient) depends on the target
    and is not modelled. *)
Definition int_div (a b : Z) : option Z :=
  if (b =? 0) || ((a =? - 2 ^ 31) && (b =? -1)) then None
  else Some (Z.quot a b).

End C.

(** ** Kernel objects the driver handles *)

(** A C pointer as the driver tests it: [NULL], an [ERR_PTR] carrying a
    negative errno, or a valid object. *)
Inductive ptr (A : Type) : Type :=
| NULL : ptr A
| ERR_PTR (err : Z) : ptr A
| PTR (a : A) : ptr A.
Arguments NULL {A}.
Arguments ERR_PTR {A} err.
Arguments PTR {A} a.

Definition IS_ERR {A} (p : ptr A) : bool :=
  match p with ERR_PTR _ => true | _ => false end.

Definition PTR_ERR {A} (p : ptr A) : Z :=
  match p with ERR_PTR e => e | _ => 0 end.

Definition is_null {A} (p : ptr A) : bool :=
  match p with NULL => true | _ => false end.

(** Opaque kernel objects, identified by a number. *)
Definition clk : Type := Z.
Definition dma_chan : Type := Z.
Definition xlnx_bridge : Type := Z.
Definition i2c_adapter : Type := Z.
Definition device_node : Type := Z.
Definition drm_device : Type := Z.
Definition drm_pending_vblank_event : Type := Z.
Definition dma_async_tx_descriptor : Type := Z.
Definition edid : Type := Z.

(** [struct drm_display_mode], the fields the driver reads.  [clock] is in
    kHz; [clock], [hdisplay], [vdisplay], [htotal], [vtotal] are [int],
    [flags] is [unsigned int]. *)
Record drm_display_mode : Type := {
  clock : Z;
  hdisplay : Z;
  vdisplay : Z;
  htotal : Z;
  vtotal : Z;
  flags : Z;
  preferred : bool  (* DRM_MODE_TYPE_PREFERRED in [type] *)
}.

(** [struct drm_framebuffer] with its format and backing CMA object:
    [format->cpp[0]] is a [u8], [pitches[0]] an [unsigned int] and
    [drm_fb_cma_get_gem_obj(fb, 0)->paddr] a [dma_addr_t]. *)
Record drm_framebuffer : Type := {
  cpp0 : Z;
  pitches0 : Z;
  paddr : Z
}.

(** [struct drm_plane_state]: [crtc_x], [crtc_y] are [int32_t], [crtc_w],
    [crtc_h] are [uint32_t]; [ps_crtc] is the [crtc] pointer.  The [crtc] and
    [fb] pointers are either NULL ([None]) or valid. *)
Record drm_plane_state : Type := {
  ps_crtc : option Z;
  fb : option drm_framebuffer;
  crtc_x : Z;
  crtc_y : Z;
  crtc_w : Z;
  crtc_h : Z
}.

Record drm_crtc_state : Type := {
  adjusted_mode : drm_display_mode;
  event : option drm_pending_vblank_event  (* NULL when nothing is pending *)
}.

Inductive dma_transfer_direction : Type :=
| DMA_MEM_TO_MEM
| DMA_MEM_TO_DEV
| DMA_DEV_TO_MEM
| DMA_DEV_TO_DEV
| DMA_TRANS_NONE.

Inductive dma_ctrl_flags : Type :=
| DMA_PREP_INTERRUPT
| DMA_CTRL_ACK.

(** [struct data_chunk]: [size] and [icg] are [size_t]. *)
Record data_chunk : Type := {
  size : Z;
  icg : Z
}.

(** [struct dma_interleaved_template] with its single chunk [sgl[0]]
    (the driver allocates room for exactly one). *)
Record dma_interleaved_template : Type := {
  src_start : Z;
  dst_start : Z;
  dir : dma_transfer_direction;
  src_inc : bool;
  dst_inc : bool;
  src_sgl : bool;
  dst_sgl : bool;
  numf : Z;
  frame_size : Z;
  sgl0 : data_chunk
}.

(** [struct videomode] as filled by [drm_display_mode_to_videomode]; the
    bridge receives the mode it was derived from. *)
Definition videomode : Type := drm_display_mode.

(** ** Calls into the rest of the kernel

    One constructor per kernel function the driver calls, with the arguments
    the driver passes; a call whose result the driver uses also records the
    result it got. *)
Inductive call : Type :=
(* clock framework *)
| clk_prepare_enable (c : ptr clk)
| clk_disable_unprepare (c : ptr clk)
| clk_set_rate (c : ptr clk) (rate : Z)
(* DMA engine *)
| dmaengine_terminate_all (d : ptr dma_chan)
| dmaengine_prep_interleaved_dma (d : ptr dma_chan)
    (xt : dma_interleaved_template) (fl : list dma_ctrl_flags)
    (res : ptr dma_async_tx_descriptor)
| dmaengine_submit (desc : dma_async_tx_descriptor)
| dma_async_issue_pending (d : ptr dma_chan)
| dma_request_slave_channel_reason (name : string) (res : ptr dma_chan)
| dma_release_channel (d : ptr dma_chan)
(* timing bridge *)
| xlnx_bridge_set_timing (b : ptr xlnx_bridge) (vm : videomode)
| xlnx_bridge_enable (b : ptr xlnx_bridge)
| xlnx_bridge_disable (b : ptr xlnx_bridge)
| of_xlnx_bridge_get (n : device_node) (res : ptr xlnx_bridge)
| of_xlnx_bridge_put (b : ptr xlnx_bridge)
(* device tree, I2C, clocks lookup *)
| devm_clk_get (res : ptr clk)
| of_parse_phandle (name : string) (res : ptr device_node)
| of_node_put (n : device_node)
| of_find_i2c_adapter_by_node (n : device_node) (res : ptr i2c_adapter)
| i2c_put_adapter (a : ptr i2c_adapter)
| of_property_read_u32 (name : string) (res : option Z)
(* DRM core *)
| spin_lock_irq
| spin_unlock_irq
| drm_crtc_send_vblank_event (e : drm_pending_vblank_event)
| drm_get_edid (a : ptr i2c_adapter) (res : ptr edid)
| drm_connector_update_edid_property (e : edid)
| drm_add_edid_modes (e : edid)
| drm_add_modes_noedid (h v : Z)
| drm_set_preferred_mode (h v : Z)
| kfree_edid (e : edid)
| drm_atomic_helper_shutdown (dev : ptr drm_device)
| drm_put_dev (dev : ptr drm_device)
(* delays and diagnostics *)
| msleep (msecs : Z)
| DRM_ERROR (msg : string).

(** ** The driver's private data ([digilent_hdmi_drv.h]) *)

Record digilent_hdmi_private : Type := {
  drm_dev : ptr drm_device;
  crtc : drm_crtc_state;            (* crtc.state *)
  plane : drm_plane_state;          (* plane.state *)
  connector : list drm_display_mode; (* connector.probed_modes *)
  dma : ptr dma_chan;
  dma_template : dma_interleaved_template;
  i2c_bus : ptr i2c_adapter;
  fmax : Z;
  hmax : Z;
  vmax : Z;
  hpref : Z;
  vpref : Z;
  vtc_bridge : ptr xlnx_bridge;
  hdmi_clock : ptr clk;
  clk_enabled : bool
}.

(** Field assignments. *)
Definition set_clk_enabled (b : bool) (p : digilent_hdmi_private) :=
  {| drm_dev := drm_dev p; crtc := crtc p; plane := plane p;
     connector := connector p; dma := dma p; dma_template := dma_template p;
     i2c_bus := i2c_bus p; fmax := fmax p; hmax := hmax p; vmax := vmax p;
     hpref := hpref p; vpref := vpref p; vtc_bridge := vtc_bridge p;
     hdmi_clock := hdmi_clock p; clk_enabled := b |}.

Definition set_dma_template (t : dma_interleaved_template)
  (p : digilent_hdmi_private) :=
  {| drm_dev := drm_dev p; crtc := crtc p; plane := plane p;
     connector := connector p; dma := dma p; dma_template := t;
     i2c_bus := i2c_bus p; fmax := fmax p; hmax := hmax p; vmax := vmax p;
     hpref := hpref p; vpref := vpref p; vtc_bridge := vtc_bridge p;
     hdmi_clock := hdmi_clock p; clk_enabled := clk_enabled p |}.

Definition set_crtc (c : drm_crtc_state) (p : digilent_hdmi_private) :=
  {| drm_dev := drm_dev p; crtc := c; plane := plane p;
     connector := connector p; dma := dma p; dma_template := dma_template p;
     i2c_bus := i2c_bus p; fmax := fmax p; hmax := hmax p; vmax := vmax p;
     hpref := hpref p; vpref := vpref p; vtc_bridge := vtc_bridge p;
     hdmi_clock := hdmi_clock p; clk_enabled := clk_enabled p |}.

Definition set_connector (l : list drm_display_mode)
  (p : digilent_hdmi_private) :=
  {| drm_dev := drm_dev p; crtc := crtc p; plane := plane p;
     connector := l; dma := dma p; dma_template := dma_template p;
     i2c_bus := i2c_bus p; fmax := fmax p; hmax := hmax p; vmax := vmax p;
     hpref := hpref p; vpref := vpref p; vtc_bridge := vtc_bridge p;
     hdmi_clock := hdmi_clock p; clk_enabled := clk_enabled p |}.

Definition set_dma (d : ptr dma_chan) (p : digilent_hdmi_private) :=
  {| drm_dev := drm_dev p; crtc := crtc p; plane := plane p;
     connector := connector p; dma := d; dma_template := dma_template p;
     i2c_bus := i2c_bus p; fmax := fmax p; hmax := hmax p; vmax := vmax p;
     hpref := hpref p; vpref := vpref p; vtc_bridge := vtc_bridge p;
     hdmi_clock := hdmi_clock p; clk_enabled := clk_enabled p |}.

Definition set_i2c_bus (a : ptr i2c_adapter) (p : digilent_hdmi_private) :=
  {| drm_dev := drm_dev p; crtc := crtc p; plane := plane p;
     connector := connector p; dma := dma p; dma_template := dma_template p;
     i2c_bus := a; fmax := fmax p; hmax := hmax p; vmax := vmax p;
     hpref := hpref p; vpref := vpref p; vtc_bridge := vtc_bridge p;
     hdmi_clock := hdmi_clock p; clk_enabled := clk_enabled p |}.

Definition set_vtc_bridge (b : ptr xlnx_bridge) (p : digilent_hdmi_private) :=
  {| drm_dev := drm_dev p; crtc := crtc p; plane := plane p;
     connector := connector p; dma := dma p; dma_template := dma_template p;
     i2c_bus := i2c_bus p; fmax := fmax p; hmax := hmax p; vmax := vmax p;
     hpref := hpref p; vpref := vpref p; vtc_bridge := b;
     hdmi_clock := hdmi_clock p; clk_enabled := clk_enabled p |}.

Definition set_hdmi_clock (c : ptr clk) (p : digilent_hdmi_private) :=
  {| drm_dev := drm_dev p; crtc := crtc p; plane := plane p;
     connector := connector p; dma := dma p; dma_template := dma_template p;
     i2c_bus := i2c_bus p; fmax := fmax p; hmax := hmax p; vmax := vmax p;
     hpref := hpref p; vpref := vpref p; vtc_bridge := vtc_bridge p;
     hdmi_clock := c; clk_enabled := clk_enabled p |}.

(** The five limits are assigned together at the end of the OF parse. *)
Definition set_limits (f h v hp vp : Z) (p : digilent_hdmi_private) :=
  {| drm_dev := drm_dev p; crtc := crtc p; plane := plane p;
     connector := connector p; dma := dma p; dma_template := dma_template p;
     i2c_bus := i2c_bus p; fmax := f; hmax := h; vmax := v;
     hpref := hp; vpref := vp; vtc_bridge := vtc_bridge p;
     hdmi_clock := hdmi_clock p; clk_enabled := clk_enabled p |}.

(** ** Driver computations: state passing with a call log *)

Definition drv (A : Type) : Type :=
  digilent_hdmi_private -> A * digilent_hdmi_private * list call.

Definition ret {A} (a : A) : drv A := fun p => (a, p, []).

Definition bind {A B} (m : drv A) (k : A -> drv B) : drv B :=
  fun p =>
    let '(a, p1, t1) := m p in
    let '(b, p2, t2) := k a p1 in
    (b, p2, t1 ++ t2).

Definition get : drv digilent_hdmi_private := fun p => (p, p, []).

Definition modify (f : digilent_hdmi_private -> digilent_hdmi_private)
  : drv unit := fun p => (tt, f p, []).

Definition do_call (c : call) : drv unit := fun p => (tt, p, [c]).

Declare Scope drv_scope.
Delimit Scope drv_scope with drv.
Notation "x <- m ;; k" := (bind m (fun x => k))
  (at level 61, m at next level, right associativity) : drv_scope.
Notation "m ;; k" := (bind m (fun _ => k))
  (at level 61, right associativity) : drv_scope.
Local Open Scope drv_scope.

(** Projections of a finished computation. *)
Definition result {A} (r : A * digilent_hdmi_private * list call) : A :=
  fst (fst r).
Definition final {A} (r : A * digilent_hdmi_private * list call)
  : digilent_hdmi_private := snd (fst r).
Definition calls {A} (r : A * digilent_hdmi_private * list call)
  : list call := snd r.

(** ** digilent_hdmi_encoder.c *)

Module Encoder.

Definition digilent_hdmi_encoder_enable : drv unit :=
  private <- get ;;
  if negb (clk_enabled private) then
    do_call (clk_prepare_enable (hdmi_clock private)) ;;
    modify (set_clk_enabled true)
  else ret tt.

Definition digilent_hdmi_encoder_disable : drv unit :=
  private <- get ;;
  if clk_enabled private then
    do_call (clk_disable_unprepare (hdmi_clock private)) ;;
    modify (set_clk_enabled false)
  else ret tt.

End Encoder.

(** ** digilent_hdmi_crtc.c *)

Module Crtc.

(** How far a CRTC callback is followed: until it returns, or until it
    evaluates an integer division that C leaves undefined (see
    [C.int_div]), from where on the source does not say what happens. *)
Inductive outcome : Type := returned | undefined_division.

Section Platform.

(** Widths of [size_t] and [dma_addr_t] on the target. *)
Variable size_t : C.width.
Variable dma_addr_t : C.width.

(** The DMA engine's answer to a prepare request: a descriptor, or NULL. *)
Variable vdma_prep :
  ptr dma_chan -> dma_interleaved_template -> list dma_ctrl_flags ->
  option dma_async_tx_descriptor.

(** The template as the function leaves it.  [old] is the template before
    the call ([dst_start] is the one field the function does not assign);
    [fb] is [plane->state->fb]. *)
Definition fill_template (old : dma_interleaved_template)
  (st : drm_plane_state) (fb : drm_framebuffer) : dma_interleaved_template :=
  let offset :=
    C.to_word size_t
      (C.to_uint (C.to_int (crtc_x st * cpp0 fb)
                  + C.to_uint (C.to_uint (crtc_y st) * pitches0 fb))) in
  let hw_row_size :=
    C.to_word size_t (C.to_uint (crtc_w st * cpp0 fb)) in
  {| dir := DMA_MEM_TO_DEV;
     src_start := C.to_word dma_addr_t (paddr fb + offset);
     dst_start := dst_start old;
     frame_size := 1;
     numf := C.to_word size_t (crtc_h st);
     src_sgl := true;
     src_inc := true;
     dst_inc := false;
     dst_sgl := false;
     sgl0 := {| size := hw_row_size;
                icg := C.to_word size_t (pitches0 fb - hw_row_size) |} |}.

(** [fb] is the framebuffer [plane->state->fb] points to; the only caller
    has checked that pointer. *)
Definition digilent_hdmi_vdma_prep_interleaved_desc (fb : drm_framebuffer)
  : drv (option dma_async_tx_descriptor) :=
  private <- get ;;
  let xt := fill_template (dma_template private) (plane private) fb in
  modify (set_dma_template xt) ;;
  let fl := [DMA_CTRL_ACK; DMA_PREP_INTERRUPT] in
  let desc := vdma_prep (dma private) xt fl in
  do_call (dmaengine_prep_interleaved_dma (dma private) xt fl
             (match desc with Some d => PTR d | None => NULL end)) ;;
  ret desc.

Definition digilent_hdmi_plane_atomic_update : drv unit :=
  private <- get ;;
  match ps_crtc (plane private), fb (plane private) with
  | Some _, Some f =>
      do_call (dmaengine_terminate_all (dma private)) ;;
      desc <- digilent_hdmi_vdma_prep_interleaved_desc f ;;
      match desc with
      | None => do_call (DRM_ERROR "failed to prepare dma descriptor")
      | Some d =>
          do_call (dmaengine_submit d) ;;
          do_call (dma_async_issue_pending (dma private))
      end
  | _, _ => ret tt
  end.

End Platform.

(** [vrefresh] and the delay are [int] computations; [msleep] takes an
    [unsigned int]. *)
Definition digilent_hdmi_crtc_enable : drv outcome :=
  private <- get ;;
  let adjusted_mode := adjusted_mode (crtc private) in
  (if negb (is_null (vtc_bridge private)) then
     do_call (xlnx_bridge_set_timing (vtc_bridge private) adjusted_mode) ;;
     do_call (xlnx_bridge_enable (vtc_bridge private))
   else ret tt) ;;
  match C.int_div (C.to_int (clock adjusted_mode * 1000))
                  (C.to_int (vtotal adjusted_mode * htotal adjusted_mode)) with
  | None => ret undefined_division
  | Some vrefresh =>
      match C.int_div (1 * 1000) vrefresh with
      | None => ret undefined_division
      | Some ms => do_call (msleep (C.to_uint ms)) ;; ret returned
      end
  end.

Definition digilent_hdmi_crtc_disable : drv unit :=
  private <- get ;;
  do_call (xlnx_bridge_disable (vtc_bridge private)) ;;
  do_call (dmaengine_terminate_all (dma private)).

Definition digilent_hdmi_crtc_atomic_begin : drv unit :=
  private <- get ;;
  match event (crtc private) with
  | Some e =>
      modify (set_crtc {| adjusted_mode := adjusted_mode (crtc private);
                          event := None |}) ;;
      do_call spin_lock_irq ;;
      do_call (drm_crtc_send_vblank_event e) ;;
      do_call spin_unlock_irq
  | None => ret tt
  end.

End Crtc.

(** ** digilent_hdmi_connector.c *)

Module Connector.

Inductive drm_mode_status : Type := MODE_OK | MODE_BAD.

Section ModeValid.

(** The mode flag bits of the DRM user API (their values are fixed by
    [drm_mode.h], which is not part of the driver). *)
Variable DRM_MODE_FLAG_INTERLACE : Z.
Variable DRM_MODE_FLAG_DBLCLK : Z.
Variable DRM_MODE_FLAG_3D_MASK : Z.

(** [mode] may be a NULL pointer.  The limits are [u32], the mode fields
    [int], so each comparison is made on [unsigned int]. *)
Definition digilent_hdmi_connector_mode_valid
  (private : digilent_hdmi_private) (mode : option drm_display_mode)
  : drm_mode_status :=
  match mode with
  | None => MODE_BAD
  | Some m =>
      if (Z.land (flags m)
            (Z.lor (Z.lor DRM_MODE_FLAG_INTERLACE DRM_MODE_FLAG_DBLCLK)
                   DRM_MODE_FLAG_3D_MASK) =? 0)
         && (C.to_uint (clock m) <=? fmax private)
         && (C.to_uint (hdisplay m) <=? hmax private)
         && (C.to_uint (vdisplay m) <=? vmax private)
      then MODE_OK
      else MODE_BAD
  end.

End ModeValid.

(** Whether a mode has the given active size. *)
Definition has_size (h v : Z) (m : drm_display_mode) : bool :=
  (hdisplay m =? h) && (vdisplay m =? v).

(** Whether a mode fits within a ceiling on the active size. *)
Definition fits_within (h v : Z) (m : drm_display_mode) : bool :=
  (hdisplay m <=? h) && (vdisplay m <=? v).

Definition clear_preferred (m : drm_display_mode) : drm_display_mode :=
  {| clock := clock m; hdisplay := hdisplay m; vdisplay := vdisplay m;
     htotal := htotal m; vtotal := vtotal m; flags := flags m;
     preferred := false |}.

Definition mark_preferred (m : drm_display_mode) : drm_display_mode :=
  {| clock := clock m; hdisplay := hdisplay m; vdisplay := vdisplay m;
     htotal := htotal m; vtotal := vtotal m; flags := flags m;
     preferred := true |}.

(** Modelled from the spec: [drm_add_modes_noedid] is a DRM core helper and
    is not among the driver's files.  The spec has the list synthesised
    without a discovery channel hold "the fallback set derived from (max-h,
    max-v)" and "a distinguished preferred mode".  This helper is given the
    ceiling only, so it yields the fallback set: the entries of the core's
    table of standard timings ([table], a parameter) whose active size fits
    within the ceiling, none of them marked preferred.  The caller appends
    them to the connector's probed modes and their number is the helper's
    result.  The distinguished preferred mode is the part of
    [drm_set_preferred_mode], the helper that is given the preferred size. *)
Definition fallback_modes (table : list drm_display_mode) (h v : Z)
  : list drm_display_mode :=
  map clear_preferred (filter (fits_within h v) table).

(** Modelled from the spec: the "distinguished preferred mode" of a given
    active size.  The spec says of it only that it has the preferred size and
    is marked preferred; its timing is left empty. *)
Definition distinguished_mode (h v : Z) : drm_display_mode :=
  {| clock := 0; hdisplay := h; vdisplay := v; htotal := 0; vtotal := 0;
     flags := 0; preferred := true |}.

(** Modelled from the spec: [drm_set_preferred_mode] is a DRM core helper and
    is not among the driver's files.  Following the spec's "a distinguished
    preferred mode (must appear in the synthesized list; [...] exactly one
    fallback entry is marked preferred)" and "exactly one entry matching
    (preferred-h, preferred-v) marked preferred", it marks one probed mode of
    active size (h, v) as preferred, the first of that size; where the list
    holds none of that size, the distinguished mode of that size is added to
    it, so that the preferred mode appears in the list.  The other entries
    are left as they are. *)
Fixpoint set_preferred (h v : Z) (probed : list drm_display_mode)
  : list drm_display_mode :=
  match probed with
  | [] => [distinguished_mode h v]
  | m :: rest =>
      if has_size h v m then mark_preferred m :: rest
      else m :: set_preferred h v rest
  end.

Section GetModes.

(** The DRM core's table of standard timings used when there is no EDID. *)
Variable table : list drm_display_mode.

(** What reading the sink over the I2C bus yields ([drm_get_edid]), and the
    modes an EDID block describes ([drm_add_edid_modes]). *)
Variable read_edid : ptr i2c_adapter -> option edid.
Variable edid_modes : edid -> list drm_display_mode.

Definition digilent_hdmi_connector_get_modes : drv Z :=
  private <- get ;;
  if negb (is_null (i2c_bus private)) then
    match read_edid (i2c_bus private) with
    | None =>
        do_call (drm_get_edid (i2c_bus private) NULL) ;;
        do_call (DRM_ERROR "failed to get EDIT data from I2C bus") ;;
        ret 0
    | Some e =>
        do_call (drm_get_edid (i2c_bus private) (PTR e)) ;;
        do_call (drm_connector_update_edid_property e) ;;
        do_call (drm_add_edid_modes e) ;;
        modify (set_connector (connector private ++ edid_modes e)) ;;
        do_call (kfree_edid e) ;;
        ret (Z.of_nat (List.length (edid_modes e)))
    end
  else
    (* the limits are [u32], both helpers take [int] arguments *)
    let hdisplay := C.to_int (hmax private) in
    let vdisplay := C.to_int (vmax private) in
    let hpref := C.to_int (hpref private) in
    let vpref := C.to_int (vpref private) in
    let added := fallback_modes table hdisplay vdisplay in
    do_call (drm_add_modes_noedid hdisplay vdisplay) ;;
    modify (set_connector (connector private ++ added)) ;;
    do_call (drm_set_preferred_mode hpref vpref) ;;
    modify (fun p =>
      set_connector (set_preferred hpref vpref (connector p)) p) ;;
    ret (Z.of_nat (List.length added)).

End GetModes.

End Connector.

(** ** digilent_hdmi_drv.c *)

Module Drv.

Definition DIGILENT_ENC_MAX_FREQ : Z := 150000.
Definition DIGILENT_ENC_MAX_H : Z := 1920.
Definition DIGILENT_ENC_MAX_V : Z := 1080.
Definition DIGILENT_ENC_PREF_H : Z := 1280.
Definition DIGILENT_ENC_PREF_V : Z := 720.

(** What the platform device and its device-tree node answer during the OF
    parse: the clock and DMA channel lookups give a pointer or an [ERR_PTR];
    a phandle property is absent ([None]) or names a node, from which the
    bridge or I2C adapter lookup gives a pointer or NULL; a [u32] property
    is absent or has a value. *)
Record platform_device : Type := {
  pd_clk : ptr clk;
  pd_dma : ptr dma_chan;
  pd_vtc : option device_node;
  pd_bridge : device_node -> ptr xlnx_bridge;
  pd_edid_i2c : option device_node;
  pd_adapter : device_node -> ptr i2c_adapter;
  pd_u32 : string -> option Z
}.

(** [devm_kzalloc] hands the probe zeroed private data. *)
Definition zero_mode : drm_display_mode :=
  {| clock := 0; hdisplay := 0; vdisplay := 0; htotal := 0; vtotal := 0;
     flags := 0; preferred := false |}.

Definition zero_private : digilent_hdmi_private :=
  {| drm_dev := NULL;
     crtc := {| adjusted_mode := zero_mode; event := None |};
     plane := {| ps_crtc := None; fb := None; crtc_x := 0; crtc_y := 0;
                 crtc_w := 0; crtc_h := 0 |};
     connector := [];
     dma := NULL;
     dma_template :=
       {| src_start := 0; dst_start := 0; dir := DMA_MEM_TO_MEM;
          src_inc := false; dst_inc := false; src_sgl := false;
          dst_sgl := false; numf := 0; frame_size := 0;
          sgl0 := {| size := 0; icg := 0 |} |};
     i2c_bus := NULL; fmax := 0; hmax := 0; vmax := 0; hpref := 0; vpref := 0;
     vtc_bridge := NULL; hdmi_clock := NULL; clk_enabled := false |}.

(** [of_property_read_u32] with the fallback the driver applies when the
    property cannot be read. *)
Definition read_u32_or (pdev : platform_device) (name : string) (dflt : Z)
  : drv Z :=
  do_call (of_property_read_u32 name (pd_u32 pdev name)) ;;
  ret (match pd_u32 pdev name with Some v => v | None => dflt end).

Section ParseOf.

(** The errno of a deferred probe ([linux/errno.h]). *)
Variable EPROBE_DEFER : Z.

(** The "vtc" step: [true] unless the property names a node for which no
    bridge instance is found. *)
Definition parse_vtc (pdev : platform_device) : drv bool :=
  match pd_vtc pdev with
  | Some sub_node =>
      do_call (of_parse_phandle "vtc" (PTR sub_node)) ;;
      do_call (of_xlnx_bridge_get sub_node (pd_bridge pdev sub_node)) ;;
      modify (set_vtc_bridge (pd_bridge pdev sub_node)) ;;
      do_call (of_node_put sub_node) ;;
      if is_null (pd_bridge pdev sub_node) then
        do_call (DRM_ERROR "VTC bridge instance not found") ;;
        ret false
      else ret true
  | None =>
      do_call (of_parse_phandle "vtc" NULL) ;;
      do_call (DRM_ERROR "VTC property not found") ;;
      ret true
  end.

(** The "edid-i2c" step, same shape. *)
Definition parse_edid_i2c (pdev : platform_device) : drv bool :=
  match pd_edid_i2c pdev with
  | Some sub_node =>
      do_call (of_parse_phandle "edid-i2c" (PTR sub_node)) ;;
      do_call (of_find_i2c_adapter_by_node sub_node
                 (pd_adapter pdev sub_node)) ;;
      modify (set_i2c_bus (pd_adapter pdev sub_node)) ;;
      do_call (of_node_put sub_node) ;;
      if is_null (pd_adapter pdev sub_node) then
        do_call (DRM_ERROR "EDID I2C adapter not found") ;;
        ret false
      else ret true
  | None =>
      do_call (of_parse_phandle "edid-i2c" NULL) ;;
      do_call (DRM_ERROR "EDID I2C property not found") ;;
      ret true
  end.

Definition digilent_hdmi_parse_of (pdev : platform_device) : drv Z :=
  do_call (devm_clk_get (pd_clk pdev)) ;;
  modify (set_hdmi_clock (pd_clk pdev)) ;;
  if IS_ERR (pd_clk pdev) then
    do_call (DRM_ERROR "failed to find HDMI clock") ;;
    (* clk_get_fail: *)
    ret (PTR_ERR (pd_clk pdev))
  else
    do_call (dma_request_slave_channel_reason "video" (pd_dma pdev)) ;;
    modify (set_dma (pd_dma pdev)) ;;
    if IS_ERR (pd_dma pdev) then
      do_call (DRM_ERROR "DMA channel not ready") ;;
      (* dma_request_fail: *)
      ret (PTR_ERR (pd_dma pdev))
    else
      vtc_ok <- parse_vtc pdev ;;
      if negb vtc_ok then
        (* vtc_bridge_get_fail: *)
        private <- get ;;
        do_call (dma_release_channel (dma private)) ;;
        ret (- EPROBE_DEFER)
      else
        i2c_ok <- parse_edid_i2c pdev ;;
        if negb i2c_ok then
          (* i2c_adapter_find_fail: *)
          private <- get ;;
          (if negb (is_null (vtc_bridge private)) then
             do_call (of_xlnx_bridge_put (vtc_bridge private))
           else ret tt) ;;
          (* vtc_bridge_get_fail: *)
          do_call (dma_release_channel (dma private)) ;;
          ret (- EPROBE_DEFER)
        else
          f <- read_u32_or pdev "fmax" DIGILENT_ENC_MAX_FREQ ;;
          h <- read_u32_or pdev "hmax" DIGILENT_ENC_MAX_H ;;
          v <- read_u32_or pdev "vmax" DIGILENT_ENC_MAX_V ;;
          hp <- read_u32_or pdev "hpref" DIGILENT_ENC_PREF_H ;;
          vp <- read_u32_or pdev "vpref" DIGILENT_ENC_PREF_V ;;
          modify (set_limits f h v hp vp) ;;
          ret 0.

End ParseOf.

Definition digilent_hdmi_of_release : drv unit :=
  private <- get ;;
  (if negb (is_null (i2c_bus private)) then
     do_call (i2c_put_adapter (i2c_bus private))
   else ret tt) ;;
  (if negb (is_null (vtc_bridge private)) then
     do_call (of_xlnx_bridge_put (vtc_bridge private))
   else ret tt) ;;
  do_call (dma_release_channel (dma private)).

Definition digilent_hdmi_platform_remove : drv Z :=
  private <- get ;;
  digilent_hdmi_of_release ;;
  do_call (drm_atomic_helper_shutdown (drm_dev private)) ;;
  do_call (drm_put_dev (drm_dev private)) ;;
  ret 0.

End Drv.

(** ** Reading call logs *)

Module Log.

Definition is_clk_start (c : call) : bool :=
  match c with clk_prepare_enable _ => true | _ => false end.

Definition is_clk_stop (c : call) : bool :=
  match c with clk_disable_unprepare _ => true | _ => false end.

Definition is_dma_call (c : call) : bool :=
  match c with
  | dmaengine_terminate_all _ | dmaengine_prep_interleaved_dma _ _ _ _
  | dmaengine_submit _ | dma_async_issue_pending _ => true
  | _ => false
  end.

Definition is_submit (c : call) : bool :=
  match c with
  | dmaengine_submit _ | dma_async_issue_pending _ => true
  | _ => false
  end.

Definition is_vblank_signal (c : call) : bool :=
  match c with drm_crtc_send_vblank_event _ => true | _ => false end.

Definition count (f : call -> bool) (tr : list call) : nat :=
  List.length (filter f tr).

(** The delays requested, in milliseconds. *)
Definition sleeps (tr : list call) : list Z :=
  flat_map (fun c => match c with msleep ms => [ms] | _ => [] end) tr.

(** The hardware resources the driver takes and gives back by hand.  (The
    pixel clock comes from [devm_clk_get] and is released by the device
    core; device-tree node references are dropped right after each lookup.) *)
Inductive resource : Type :=
| dma_channel (d : ptr dma_chan)
| timing_bridge (b : ptr xlnx_bridge)
| capability_channel (a : ptr i2c_adapter).

Definition acquires (c : call) : list resource :=
  match c with
  | dma_request_slave_channel_reason _ d =>
      if IS_ERR d then [] else [dma_channel d]
  | of_xlnx_bridge_get _ b => if is_null b then [] else [timing_bridge b]
  | of_find_i2c_adapter_by_node _ a =>
      if is_null a then [] else [capability_channel a]
  | _ => []
  end.

Definition releases (c : call) : list resource :=
  match c with
  | dma_release_channel d => [dma_channel d]
  | of_xlnx_bridge_put b => [timing_bridge b]
  | i2c_put_adapter a => [capability_channel a]
  | _ => []
  end.

Definition acquired (tr : list call) : list resource := flat_map acquires tr.
Definition released (tr : list call) : list resource := flat_map releases tr.

(** Position of the first call satisfying [f], if any. *)
Fixpoint index_of (f : call -> bool) (tr : list call) : option nat :=
  match tr with
  | [] => None
  | c :: tr' =>
      if f c then Some O
      else match index_of f tr' with Some n => Some (S n) | None => None end
  end.

Definition is_release (c : call) : bool :=
  match releases c with [] => false | _ => true end.

Definition is_shutdown (c : call) : bool :=
  match c with drm_atomic_helper_shutdown _ => true | _ => false end.

End Log.

(** [n] atomic passes in a row, each running the CRTC's begin hook. *)
Fixpoint begin_frames (n : nat) : drv unit :=
  match n with
  | O => ret tt
  | S k => Crtc.digilent_hdmi_crtc_atomic_begin ;; begin_frames k
  end.

(** A state in which the commit engine has queued the event [e]. *)
Definition with_event (e : option drm_pending_vblank_event)
  (p : digilent_hdmi_private) : digilent_hdmi_private :=
  set_crtc {| adjusted_mode := adjusted_mode (crtc p); event := e |} p.

(** The private data with another adjusted mode on the CRTC. *)
Definition with_mode (m : drm_display_mode) (p : digilent_hdmi_private)
  : digilent_hdmi_private :=
  set_crtc {| adjusted_mode := m; event := event (crtc p) |} p.

(** The calls the CRTC enable hook makes to the timing bridge. *)
Definition bridge_setup (p : digilent_hdmi_private) : list call :=
  if negb (is_null (vtc_bridge p)) then
    [xlnx_bridge_set_timing (vtc_bridge p) (adjusted_mode (crtc p));
     xlnx_bridge_enable (vtc_bridge p)]
  else [].

(** Geometry for which none of the C computations wraps: non-negative
    position and size, a row of the crop that lies within one buffer row, a
    byte offset of the crop origin that fits an [unsigned int] and a start
    address that fits a [dma_addr_t]. *)
Definition valid_geometry (dma_addr_t : C.width) (st : drm_plane_state)
  (f : drm_framebuffer) : Prop :=
  0 <= crtc_x st /\ 0 <= crtc_y st /\ 0 <= crtc_w st
  /\ 0 <= crtc_h st < 2 ^ 32
  /\ 0 <= cpp0 f /\ 0 <= pitches0 f < 2 ^ 32 /\ 0 <= paddr f
  /\ crtc_x st * cpp0 f + crtc_w st * cpp0 f <= pitches0 f
  /\ crtc_y st * pitches0 f + crtc_x st * cpp0 f < 2 ^ 32
  /\ paddr f + crtc_y st * pitches0 f + crtc_x st * cpp0 f
     < 2 ^ C.bits dma_addr_t.

(** The flags every prepare request carries. *)
Definition prep_flags : list dma_ctrl_flags :=
  [DMA_CTRL_ACK; DMA_PREP_INTERRUPT].

(** The pointer a prepare request returns. *)
Definition desc_ptr (d : option dma_async_tx_descriptor)
  : ptr dma_async_tx_descriptor :=
  match d with Some x => PTR x | None => NULL end.

(** Some flag the driver does not support is set in [fl]. *)
Definition unsupported_flags (INTERLACE DBLCLK MASK_3D fl : Z) : Prop :=
  Z.land fl INTERLACE <> 0 \/ Z.land fl DBLCLK <> 0
  \/ Z.land fl MASK_3D <> 0.

(** The probed modes that are marked preferred. *)
Definition preferred_modes (probed : list drm_display_mode)
  : list drm_display_mode := filter preferred probed.

(** The calls by which [digilent_hdmi_of_release] gives the resources
    back. *)
Definition of_release_calls (p : digilent_hdmi_private) : list call :=
  (if negb (is_null (i2c_bus p)) then [i2c_put_adapter (i2c_bus p)] else [])
  ++ (if negb (is_null (vtc_bridge p)) then [of_xlnx_bridge_put (vtc_bridge p)]
      else [])
  ++ [dma_release_channel (dma p)].

(** An optional dependency is found when its property is absent or names a
    node whose bridge, respectively adapter, lookup succeeds; it is
    configured but missing otherwise. *)
Definition vtc_found (pdev : Drv.platform_device) : bool :=
  match Drv.pd_vtc pdev with
  | Some n => negb (is_null (Drv.pd_bridge pdev n))
  | None => true
  end.

Definition edid_i2c_found (pdev : Drv.platform_device) : bool :=
  match Drv.pd_edid_i2c pdev with
  | Some n => negb (is_null (Drv.pd_adapter pdev n))
  | None => true
  end.

(** The bridge and the adapter a successful lookup acquires. *)
Definition bridge_of (pdev : Drv.platform_device) : list Log.resource :=
  match Drv.pd_vtc pdev with
  | Some n => if is_null (Drv.pd_bridge pdev n) then []
              else [Log.timing_bridge (Drv.pd_bridge pdev n)]
  | None => []
  end.

Definition adapter_of (pdev : Drv.platform_device) : list Log.resource :=
  match Drv.pd_edid_i2c pdev with
  | Some n => if is_null (Drv.pd_adapter pdev n) then []
              else [Log.capability_channel (Drv.pd_adapter pdev n)]
  | None => []
  end.

(** ** Example configurations *)

Module Examples.

(** The mode flag bits as [drm_mode.h] defines them. *)
Definition FLAG_INTERLACE : Z := Z.shiftl 1 4.
Definition FLAG_DBLCLK : Z := Z.shiftl 1 12.
Definition FLAG_3D_MASK : Z := Z.shiftl 31 14.

(** A few VESA timings at 60 Hz or below, as a table of standard timings. *)
Definition timing (c h ht v vt : Z) : drm_display_mode :=
  {| clock := c; hdisplay := h; vdisplay := v; htotal := ht; vtotal := vt;
     flags := 0; preferred := false |}.

Definition standard_timings : list drm_display_mode :=
  [timing 25175 640 800 480 525;
   timing 36000 800 1024 600 625;
   timing 40000 800 1056 600 628;
   timing 65000 1024 1344 768 806;
   timing 74250 1280 1650 720 750;
   timing 148500 1920 2200 1080 1125].

(** A mode exactly at the built-in ceilings, and an interlaced one. *)
Definition mode_at_ceilings : drm_display_mode :=
  {| clock := 150000; hdisplay := 1920; vdisplay := 1080;
     htotal := 2200; vtotal := 1125; flags := 0; preferred := false |}.

Definition mode_1080i : drm_display_mode :=
  {| clock := 74250; hdisplay := 1920; vdisplay := 1080;
     htotal := 2200; vtotal := 1125; flags := FLAG_INTERLACE;
     preferred := false |}.

(** Device-tree answers: every dependency present and found; the EDID bus
    named but its adapter not registered yet; neither optional property. *)
Definition no_u32 (name : string) : option Z := None.

Definition pdev_full : Drv.platform_device :=
  {| Drv.pd_clk := PTR 4; Drv.pd_dma := PTR 1;
     Drv.pd_vtc := Some 10; Drv.pd_bridge := fun _ => PTR 2;
     Drv.pd_edid_i2c := Some 11; Drv.pd_adapter := fun _ => PTR 3;
     Drv.pd_u32 := no_u32 |}.

Definition pdev_adapter_missing : Drv.platform_device :=
  {| Drv.pd_clk := PTR 4; Drv.pd_dma := PTR 1;
     Drv.pd_vtc := Some 10; Drv.pd_bridge := fun _ => PTR 2;
     Drv.pd_edid_i2c := Some 11; Drv.pd_adapter := fun _ => NULL;
     Drv.pd_u32 := no_u32 |}.

Definition pdev_bare : Drv.platform_device :=
  {| Drv.pd_clk := PTR 4; Drv.pd_dma := PTR 1;
     Drv.pd_vtc := None; Drv.pd_bridge := fun _ => NULL;
     Drv.pd_edid_i2c := None; Drv.pd_adapter := fun _ => NULL;
     Drv.pd_u32 := no_u32 |}.

(** The errno of a deferred probe. *)
Definition EPROBE_DEFER : Z := 517.

(** No EDID is ever read in the examples without an I2C bus. *)
Definition no_edid (a : ptr i2c_adapter) : option edid := None.
Definition no_edid_modes (e : edid) : list drm_display_mode := [].

(** CEA 1920x1080 at 60 Hz. *)
Definition mode_1080p60 : drm_display_mode :=
  {| clock := 148500; hdisplay := 1920; vdisplay := 1080;
     htotal := 2200; vtotal := 1125; flags := 0; preferred := false |}.

(** A small mode driven at the default clock ceiling: 150 MHz over a
    400x300 total is a 1250 Hz refresh. *)
Definition mode_320x240_fast : drm_display_mode :=
  {| clock := 150000; hdisplay := 320; vdisplay := 240;
     htotal := 400; vtotal := 300; flags := 0; preferred := false |}.

(** Private data as a successful probe leaves it on a board with a timing
    bridge and an EDID bus, with the built-in limits. *)
Definition board : digilent_hdmi_private :=
  {| drm_dev := PTR 5;
     crtc := {| adjusted_mode := mode_1080p60; event := None |};
     plane := {| ps_crtc := None; fb := None; crtc_x := 0; crtc_y := 0;
                 crtc_w := 0; crtc_h := 0 |};
     connector := [];
     dma := PTR 1;
     dma_template := dma_template Drv.zero_private;
     i2c_bus := PTR 3;
     fmax := Drv.DIGILENT_ENC_MAX_FREQ; hmax := Drv.DIGILENT_ENC_MAX_H;
     vmax := Drv.DIGILENT_ENC_MAX_V; hpref := Drv.DIGILENT_ENC_PREF_H;
     vpref := Drv.DIGILENT_ENC_PREF_V;
     vtc_bridge := PTR 2; hdmi_clock := PTR 4; clk_enabled := false |}.

Definition set_plane (st : drm_plane_state) (p : digilent_hdmi_private)
  : digilent_hdmi_private :=
  {| drm_dev := drm_dev p; crtc := crtc p; plane := st;
     connector := connector p; dma := dma p; dma_template := dma_template p;
     i2c_bus := i2c_bus p; fmax := fmax p; hmax := hmax p; vmax := vmax p;
     hpref := hpref p; vpref := vpref p; vtc_bridge := vtc_bridge p;
     hdmi_clock := hdmi_clock p; clk_enabled := clk_enabled p |}.

(** A 1920x1080 XRGB8888 framebuffer (4 bytes per pixel, 7680-byte rows). *)
Definition fb_1080p : drm_framebuffer :=
  {| cpp0 := 4; pitches0 := 7680; paddr := 268435456 |}.

(** A 640x480 XRGB8888 framebuffer (2560-byte rows). *)
Definition fb_vga : drm_framebuffer :=
  {| cpp0 := 4; pitches0 := 2560; paddr := 268435456 |}.

(** A 1280x720 window at (16, 8) of the 1080p framebuffer. *)
Definition plane_window : drm_plane_state :=
  {| ps_crtc := Some 0; fb := Some fb_1080p; crtc_x := 16; crtc_y := 8;
     crtc_w := 1280; crtc_h := 720 |}.

(** A plane 1920 pixels wide scanning out of the 640-pixel framebuffer:
    each row asks for 7680 bytes of a 2560-byte buffer row. *)
Definition plane_too_wide : drm_plane_state :=
  {| ps_crtc := Some 0; fb := Some fb_vga; crtc_x := 0; crtc_y := 0;
     crtc_w := 1920; crtc_h := 1080 |}.

(** The 1280x720 window moved one pixel to the left of the framebuffer's
    first column. *)
Definition plane_left_of_origin : drm_plane_state :=
  {| ps_crtc := Some 0; fb := Some fb_1080p; crtc_x := -1; crtc_y := 0;
     crtc_w := 1280; crtc_h := 720 |}.

(** A DMA engine that accepts whatever template it is given. *)
Definition accept_all (d : ptr dma_chan) (xt : dma_interleaved_template)
  (fl : list dma_ctrl_flags) : option dma_async_tx_descriptor := Some 7.

(** A DMA engine that refuses every template. *)
Definition refuse_all (d : ptr dma_chan) (xt : dma_interleaved_template)
  (fl : list dma_ctrl_flags) : option dma_async_tx_descriptor := None.

End Examples.

(** * Further driver functions *)

(** ** digilent_hdmi_encoder.c: mode setting *)

Module EncoderMode.

Section Platform.

(** Width of [unsigned long], the type of a clock rate. *)
Variable long : C.width.

(** [mode] is [&crtc_state->mode]; [mode->clock * 1000] is an [int]
    product, converted to the [unsigned long] rate [clk_set_rate] takes. *)
Definition digilent_hdmi_encoder_mode_set (mode : drm_display_mode)
  : drv unit :=
  private <- get ;;
  do_call (clk_set_rate (hdmi_clock private)
             (C.to_word long (C.to_int (clock mode * 1000)))).

(** The encoder hooks as the commit engine may invoke them, in any order. *)
Inductive encoder_op : Type :=
| op_enable
| op_disable
| op_mode_set (mode : drm_display_mode).

Definition run_encoder_op (o : encoder_op) : drv unit :=
  match o with
  | op_enable => Encoder.digilent_hdmi_encoder_enable
  | op_disable => Encoder.digilent_hdmi_encoder_disable
  | op_mode_set m => digilent_hdmi_encoder_mode_set m
  end.

Fixpoint run_encoder_ops (ops : list encoder_op) : drv unit :=
  match ops with
  | [] => ret tt
  | o :: rest => run_encoder_op o ;; run_encoder_ops rest
  end.

End Platform.

(** The clock a clock-framework call names. *)
Definition clock_of (c : call) : list (ptr clk) :=
  match c with
  | clk_prepare_enable k | clk_disable_unprepare k | clk_set_rate k _ => [k]
  | _ => []
  end.

End EncoderMode.

(** ** digilent_hdmi_connector.c: detection *)

Module Detect.

Inductive drm_connector_status : Type :=
| connector_status_connected
| connector_status_disconnected
| connector_status_unknown.

(** [drm_probe_ddc] tells whether a sink answers on the bus; the hook reads
    the private data and changes nothing.  [force] is not looked at. *)
Definition digilent_hdmi_connector_detect
  (drm_probe_ddc : ptr i2c_adapter -> bool)
  (private : digilent_hdmi_private) (force : bool) : drm_connector_status :=
  if negb (is_null (i2c_bus private)) then
    if drm_probe_ddc (i2c_bus private) then connector_status_connected
    else connector_status_disconnected
  else connector_status_unknown.

(** Calls of [get_modes]: the synthesis of fallback modes, the read of the
    sink's EDID and the release of the EDID block. *)
Definition is_fallback_call (c : call) : bool :=
  match c with
  | drm_add_modes_noedid _ _ | drm_set_preferred_mode _ _ => true
  | _ => false
  end.

Definition is_edid_read (c : call) : bool :=
  match c with drm_get_edid _ _ => true | _ => false end.

Definition is_edid_free (c : call) : bool :=
  match c with kfree_edid _ => true | _ => false end.

End Detect.

(** ** Sequences of plane updates *)

Module Frames.

Section Platform.

Variable size_t : C.width.
Variable dma_addr_t : C.width.
Variable vdma_prep :
  ptr dma_chan -> dma_interleaved_template -> list dma_ctrl_flags ->
  option dma_async_tx_descriptor.

(** The commit engine installs a plane state, then runs the update hook. *)
Fixpoint run_updates (sts : list drm_plane_state) : drv unit :=
  match sts with
  | [] => ret tt
  | st :: rest =>
      modify (Examples.set_plane st) ;;
      Crtc.digilent_hdmi_plane_atomic_update size_t dma_addr_t vdma_prep ;;
      run_updates rest
  end.

End Platform.

(** A plane state the update hook acts on. *)
Definition active (st : drm_plane_state) : bool :=
  match ps_crtc st, fb st with Some _, Some _ => true | _, _ => false end.

(** A log made of whole updates: each is a terminate and a prepare followed
    either by the error report (prepare returned NULL) or by the submit of
    the prepared descriptor and the issue. *)
Fixpoint whole_updates (tr : list call) : bool :=
  match tr with
  | [] => true
  | dmaengine_terminate_all _
    :: dmaengine_prep_interleaved_dma _ _ _ NULL
    :: DRM_ERROR _ :: rest => whole_updates rest
  | dmaengine_terminate_all _
    :: dmaengine_prep_interleaved_dma _ _ _ (PTR x)
    :: dmaengine_submit y
    :: dma_async_issue_pending _ :: rest => (x =? y) && whole_updates rest
  | _ => false
  end.

(** The channel a DMA engine call names. *)
Definition channel_of (c : call) : list (ptr dma_chan) :=
  match c with
  | dmaengine_terminate_all d | dmaengine_prep_interleaved_dma d _ _ _
  | dma_async_issue_pending d => [d]
  | _ => []
  end.

(** Whether a transfer is left issued at the end of a log: an issue starts
    one, a terminate stops it. *)
Definition in_flight (tr : list call) : bool :=
  fold_left (fun b c =>
               match c with
               | dma_async_issue_pending _ => true
               | dmaengine_terminate_all _ => false
               | _ => b
               end) tr false.

Definition is_terminate (c : call) : bool :=
  match c with dmaengine_terminate_all _ => true | _ => false end.

Definition is_issue (c : call) : bool :=
  match c with dma_async_issue_pending _ => true | _ => false end.

End Frames.

(** ** Construction and probe: digilent_hdmi_*_create, platform_probe *)

Module Setup.

(** Calls made while the device is constructed.  [runtime] embeds the calls
    of the running driver; the others are the DRM core, allocator and
    platform functions the create and probe functions call, with the result
    they got.  Three field assignments to DRM objects outside the private
    data are recorded as well ([mode_config_limits], [encoder_possible_crtcs],
    [connector_polled]). *)
Inductive setup_call : Type :=
| runtime (c : call)
| devm_kzalloc (ok : bool)
| drm_dev_alloc (res : ptr drm_device)
| drm_mode_config_init (dev : ptr drm_device)
| mode_config_limits (min_width min_height max_width max_height : Z)
| drm_kms_helper_poll_init (dev : ptr drm_device)
| drm_kms_helper_poll_fini (dev : ptr drm_device)
| kzalloc (ok : bool)
| kfree
| drm_universal_plane_init (rc : Z)
| drm_plane_helper_add
| drm_plane_cleanup
| drm_crtc_init_with_planes (rc : Z)
| drm_crtc_helper_add
| drm_crtc_cleanup
| encoder_possible_crtcs (mask : Z)
| drm_encoder_init (rc : Z)
| drm_encoder_helper_add
| connector_polled (connect disconnect : bool)
| drm_connector_init (rc : Z)
| drm_connector_helper_add
| drm_connector_register (rc : Z)
| drm_connector_attach_encoder (rc : Z)
| drm_connector_unregister
| drm_connector_cleanup
| drm_mode_config_reset (dev : ptr drm_device)
| drm_dev_register (dev : ptr drm_device) (rc : Z)
| drm_fbdev_generic_setup (dev : ptr drm_device) (bpp : Z)
| drm_mode_config_cleanup (dev : ptr drm_device).

(** What the allocator and the DRM core answer during construction: whether
    each allocation succeeds, the device pointer or [ERR_PTR], and the
    return code of each initialisation (0 for success). *)
Record drm_core : Type := {
  private_alloc : bool;
  dev_alloc : ptr drm_device;
  template_alloc : bool;
  plane_init : Z;
  crtc_init : Z;
  encoder_init : Z;
  connector_init : Z;
  connector_register : Z;
  attach_encoder : Z;
  dev_register : Z
}.

Definition setup (A : Type) : Type :=
  digilent_hdmi_private -> A * digilent_hdmi_private * list setup_call.

Definition sret {A} (a : A) : setup A := fun p => (a, p, []).

Definition sbind {A B} (m : setup A) (k : A -> setup B) : setup B :=
  fun p =>
    let '(a, p1, t1) := m p in
    let '(b, p2, t2) := k a p1 in
    (b, p2, t1 ++ t2).

Definition sget : setup digilent_hdmi_private := fun p => (p, p, []).

Definition smodify (f : digilent_hdmi_private -> digilent_hdmi_private)
  : setup unit := fun p => (tt, f p, []).

Definition emit (c : setup_call) : setup unit := fun p => (tt, p, [c]).

(** A computation of the running driver, used during construction. *)
Definition lift {A} (m : drv A) : setup A :=
  fun p => let '(a, p1, t) := m p in (a, p1, map runtime t).

Definition error (msg : string) : setup unit := emit (runtime (DRM_ERROR msg)).

Declare Scope setup_scope.
Delimit Scope setup_scope with setup.
Notation "x <- m ;; k" := (sbind m (fun x => k))
  (at level 61, m at next level, right associativity) : setup_scope.
Notation "m ;; k" := (sbind m (fun _ => k))
  (at level 61, right associativity) : setup_scope.
Local Open Scope setup_scope.

Definition set_drm_dev (d : ptr drm_device) (p : digilent_hdmi_private) :=
  {| drm_dev := d; crtc := crtc p; plane := plane p;
     connector := connector p; dma := dma p; dma_template := dma_template p;
     i2c_bus := i2c_bus p; fmax := fmax p; hmax := hmax p; vmax := vmax p;
     hpref := hpref p; vpref := vpref p; vtc_bridge := vtc_bridge p;
     hdmi_clock := hdmi_clock p; clk_enabled := clk_enabled p |}.

(** [kzalloc] returns zeroed memory. *)
Definition zero_template : dma_interleaved_template :=
  dma_template Drv.zero_private.

Section Errno.

(** Errnos of [linux/errno.h]. *)
Variable ENOMEM : Z.
Variable EPROBE_DEFER : Z.

(** The private data hold the template's content; a failed allocation
    leaves them as they are (the pointer is then NULL and the function
    returns at once). *)
Definition digilent_hdmi_crtc_create (k : drm_core) : setup Z :=
  emit (kzalloc (template_alloc k)) ;;
  if negb (template_alloc k) then
    error "failed to allocate memory for DMA template" ;;
    (* dma_template_alloc_fail: *)
    sret (- ENOMEM)
  else
    smodify (set_dma_template zero_template) ;;
    emit (drm_universal_plane_init (plane_init k)) ;;
    if negb (plane_init k =? 0) then
      error "failed to initialize plane" ;;
      (* plane_init_fail: *)
      emit kfree ;;
      sret (plane_init k)
    else
      emit drm_plane_helper_add ;;
      emit (drm_crtc_init_with_planes (crtc_init k)) ;;
      if negb (crtc_init k =? 0) then
        error "failed to initialize crtc" ;;
        (* crtc_init_fail: *)
        emit drm_plane_cleanup ;;
        (* plane_init_fail: *)
        emit kfree ;;
        sret (crtc_init k)
      else
        emit drm_crtc_helper_add ;;
        sret 0.

Definition digilent_hdmi_crtc_destroy : setup unit :=
  emit drm_crtc_cleanup ;;
  emit kfree.

Definition digilent_hdmi_encoder_create (k : drm_core) : setup Z :=
  emit (encoder_possible_crtcs 1) ;;
  emit (drm_encoder_init (encoder_init k)) ;;
  if negb (encoder_init k =? 0) then
    error "failed to initialize DRM encoder" ;;
    sret (encoder_init k)
  else
    emit drm_encoder_helper_add ;;
    sret 0.

Definition digilent_hdmi_connector_create (k : drm_core) : setup Z :=
  emit (connector_polled true true) ;;
  emit (drm_connector_init (connector_init k)) ;;
  if negb (connector_init k =? 0) then
    error "failed to init connector" ;;
    (* register_connector_init_fail: *)
    sret (connector_init k)
  else
    emit drm_connector_helper_add ;;
    emit (drm_connector_register (connector_register k)) ;;
    if negb (connector_register k =? 0) then
      error "failed to register connector" ;;
      (* register_connector_register_fail: *)
      emit drm_connector_cleanup ;;
      sret (connector_register k)
    else
      emit (drm_connector_attach_encoder (attach_encoder k)) ;;
      if negb (attach_encoder k =? 0) then
        error "failed to attach encoder to connector" ;;
        (* attach_encoder_fail: *)
        emit drm_connector_unregister ;;
        (* register_connector_register_fail: *)
        emit drm_connector_cleanup ;;
        sret (attach_encoder k)
      else sret 0.

Definition digilent_hdmi_connector_destroy : setup unit :=
  emit drm_connector_unregister ;;
  emit drm_connector_cleanup.

Definition digilent_hdmi_unload (dev : ptr drm_device) : setup unit :=
  emit (drm_kms_helper_poll_fini dev) ;;
  emit (drm_mode_config_cleanup dev).

(** The common tail of the probe's error labels from [crtc_create_fail] to
    [fbdev_setup_fail]. *)
Definition create_fail (rc : Z) : setup Z :=
  private <- sget ;;
  emit (drm_mode_config_cleanup (drm_dev private)) ;;
  (* drm_dev_alloc_fail: *)
  lift Drv.digilent_hdmi_of_release ;;
  sret rc.

(** The probe runs on the private data it allocates itself (zeroed); the
    [mode_config] limits are [int] fields assigned from the [u32] limits. *)
Definition digilent_hdmi_platform_probe (pdev : Drv.platform_device)
  (k : drm_core) : setup Z :=
  emit (devm_kzalloc (private_alloc k)) ;;
  if negb (private_alloc k) then
    error "failed to allocate memory for private data" ;;
    (* private_alloc_fail: *)
    sret (- ENOMEM)
  else
    smodify (fun _ => Drv.zero_private) ;;
    rc <- lift (Drv.digilent_hdmi_parse_of EPROBE_DEFER pdev) ;;
    if negb (rc =? 0) then
      error "failed to parse OF" ;;
      (* parse_of_fail: *)
      sret rc
    else
      emit (drm_dev_alloc (dev_alloc k)) ;;
      if IS_ERR (dev_alloc k) then
        error "failed to allocate DRM device" ;;
        (* drm_dev_alloc_fail: *)
        lift Drv.digilent_hdmi_of_release ;;
        sret (PTR_ERR (dev_alloc k))
      else
        smodify (set_drm_dev (dev_alloc k)) ;;
        emit (drm_mode_config_init (dev_alloc k)) ;;
        private <- sget ;;
        emit (mode_config_limits 0 0 (C.to_int (hmax private))
                (C.to_int (vmax private))) ;;
        emit (drm_kms_helper_poll_init (dev_alloc k)) ;;
        rc <- digilent_hdmi_crtc_create k ;;
        if negb (rc =? 0) then
          error "failed to create crtc" ;; create_fail rc
        else
          rc <- digilent_hdmi_encoder_create k ;;
          if negb (rc =? 0) then
            error "failed to create encoder" ;; create_fail rc
          else
            rc <- digilent_hdmi_connector_create k ;;
            if negb (rc =? 0) then
              error "failed to create connector" ;; create_fail rc
            else
              emit (drm_mode_config_reset (dev_alloc k)) ;;
              emit (drm_dev_register (dev_alloc k) (dev_register k)) ;;
              if negb (dev_register k =? 0) then
                error "failed to initialize fbdev" ;;
                create_fail (dev_register k)
              else
                emit (drm_fbdev_generic_setup (dev_alloc k) 32) ;;
                sret 0.

End Errno.

(** Reading construction logs. *)

(** The calls of the running driver among the construction calls. *)
Definition runtime_calls (tr : list setup_call) : list call :=
  flat_map (fun c => match c with runtime r => [r] | _ => [] end) tr.

(** The DRM objects and allocations construction sets up and tears down. *)
Inductive object : Type :=
| the_template | the_plane | the_crtc | the_encoder
| the_connector | the_registration.

Definition builds (c : setup_call) : list object :=
  match c with
  | kzalloc true => [the_template]
  | drm_universal_plane_init rc => if rc =? 0 then [the_plane] else []
  | drm_crtc_init_with_planes rc => if rc =? 0 then [the_crtc] else []
  | drm_encoder_init rc => if rc =? 0 then [the_encoder] else []
  | drm_connector_init rc => if rc =? 0 then [the_connector] else []
  | drm_connector_register rc => if rc =? 0 then [the_registration] else []
  | _ => []
  end.

Definition tears (c : setup_call) : list object :=
  match c with
  | kfree => [the_template]
  | drm_plane_cleanup => [the_plane]
  | drm_crtc_cleanup => [the_crtc]
  | drm_connector_cleanup => [the_connector]
  | drm_connector_unregister => [the_registration]
  | _ => []
  end.

Definition built (tr : list setup_call) : list object := flat_map builds tr.
Definition torn (tr : list setup_call) : list object := flat_map tears tr.

Definition sresult {A} (r : A * digilent_hdmi_private * list setup_call) : A :=
  fst (fst r).
Definition sfinal {A} (r : A * digilent_hdmi_private * list setup_call)
  : digilent_hdmi_private := snd (fst r).
Definition scalls {A} (r : A * digilent_hdmi_private * list setup_call)
  : list setup_call := snd r.

(** Every construction step succeeds. *)
Definition core_ok (k : drm_core) : bool :=
  private_alloc k && negb (IS_ERR (dev_alloc k)) && template_alloc k
  && (plane_init k =? 0) && (crtc_init k =? 0) && (encoder_init k =? 0)
  && (connector_init k =? 0) && (connector_register k =? 0)
  && (attach_encoder k =? 0) && (dev_register k =? 0).

(** The platform side of a successful OF parse. *)
Definition of_ok (pdev : Drv.platform_device) : bool :=
  negb (IS_ERR (Drv.pd_clk pdev)) && negb (IS_ERR (Drv.pd_dma pdev))
  && vtc_found pdev && edid_i2c_found pdev.

(** An [ERR_PTR] carries a non-zero errno. *)
Definition errors_nonzero (pdev : Drv.platform_device) (k : drm_core)
  : Prop :=
  (IS_ERR (Drv.pd_clk pdev) = true -> PTR_ERR (Drv.pd_clk pdev) <> 0)
  /\ (IS_ERR (Drv.pd_dma pdev) = true -> PTR_ERR (Drv.pd_dma pdev) <> 0)
  /\ (IS_ERR (dev_alloc k) = true -> PTR_ERR (dev_alloc k) <> 0).

(** The construction calls proper, without those of the running driver. *)
Definition construction (tr : list setup_call) : list setup_call :=
  filter (fun c => match c with runtime _ => false | _ => true end) tr.

Definition is_limits (c : setup_call) : bool :=
  match c with mode_config_limits _ _ _ _ => true | _ => false end.

Definition is_register (c : setup_call) : bool :=
  match c with drm_dev_register _ _ => true | _ => false end.

Definition is_fbdev_setup (c : setup_call) : bool :=
  match c with drm_fbdev_generic_setup _ _ => true | _ => false end.

Definition is_config_cleanup (c : setup_call) : bool :=
  match c with drm_mode_config_cleanup _ => true | _ => false end.

Definition is_poll (c : setup_call) : bool :=
  match c with
  | drm_kms_helper_poll_init _ | drm_kms_helper_poll_fini _ => true
  | _ => false
  end.

End Setup.

(** ** Reading the OF parse *)

Module OfLog.

(** The value of a [u32] property, or the driver's default. *)
Definition limit_or (pdev : Drv.platform_device) (name : string) (dflt : Z)
  : Z :=
  match Drv.pd_u32 pdev name with Some v => v | None => dflt end.

(** The names of the [u32] properties read, in order. *)
Definition u32_reads (tr : list call) : list string :=
  flat_map (fun c => match c with
                     | of_property_read_u32 name _ => [name]
                     | _ => []
                     end) tr.

(** The five limits of the private data. *)
Definition limits (p : digilent_hdmi_private) : Z * Z * Z * Z * Z :=
  (fmax p, hmax p, vmax p, hpref p, vpref p).

(** The device-tree nodes taken and put back. *)
Definition nodes_got (tr : list call) : list device_node :=
  flat_map (fun c => match c with
                     | of_parse_phandle _ (PTR n) => [n]
                     | _ => []
                     end) tr.

Definition nodes_put (tr : list call) : list device_node :=
  flat_map (fun c => match c with of_node_put n => [n] | _ => [] end) tr.

End OfLog.

(** ** Example construction environments *)

Module SetupExamples.

(** Every construction step succeeds; the DRM device is device 5. *)
Definition core_fine : Setup.drm_core :=
  {| Setup.private_alloc := true; Setup.dev_alloc := PTR 5;
     Setup.template_alloc := true; Setup.plane_init := 0;
     Setup.crtc_init := 0; Setup.encoder_init := 0;
     Setup.connector_init := 0; Setup.connector_register := 0;
     Setup.attach_encoder := 0; Setup.dev_register := 0 |}.

(** The encoder cannot be attached to the connector (-22). *)
Definition core_attach_fails : Setup.drm_core :=
  {| Setup.private_alloc := true; Setup.dev_alloc := PTR 5;
     Setup.template_alloc := true; Setup.plane_init := 0;
     Setup.crtc_init := 0; Setup.encoder_init := 0;
     Setup.connector_init := 0; Setup.connector_register := 0;
     Setup.attach_encoder := -22; Setup.dev_register := 0 |}.

(** The errno of a failed allocation. *)
Definition ENOMEM : Z := 12.

End SetupExamples.

(** * Properties *)

(** ** Clock/encoder controller *)

Module EncoderSpec.
Import Encoder.

Lemma enable_when_disabled p :
  clk_enabled p = false ->
  digilent_hdmi_encoder_enable p
  = (tt, set_clk_enabled true p, [clk_prepare_enable (hdmi_clock p)]).
Proof.
  intros H. unfold digilent_hdmi_encoder_enable, bind, get.
  rewrite H. reflexivity.
Qed.

Lemma enable_when_enabled p :
  clk_enabled p = true -> digilent_hdmi_encoder_enable p = (tt, p, []).
Proof.
  intros H. unfold digilent_hdmi_encoder_enable, bind, get.
  rewrite H. reflexivity.
Qed.

Lemma disable_when_disabled p :
  clk_enabled p = false -> digilent_hdmi_encoder_disable p = (tt, p, []).
Proof.
  intros H. unfold digilent_hdmi_encoder_disable, bind, get.
  rewrite H. reflexivity.
Qed.

Lemma disable_when_enabled p :
  clk_enabled p = true ->
  digilent_hdmi_encoder_disable p
  = (tt, set_clk_enabled false p, [clk_disable_unprepare (hdmi_clock p)]).
Proof.
  intros H. unfold digilent_hdmi_encoder_disable, bind, get.
  rewrite H. reflexivity.
Qed.

(** C8.  Enable and disable are idempotent on the clock-enabled flag.  From
    the Disabled state (the flag false, whatever the rest of the private
    data), enabling twice makes exactly one [clk_prepare_enable] call and
    ends Enabled; disabling before any enable makes no call at all (in
    particular no [clk_disable_unprepare]) and leaves the state as it was. *)
Theorem encoder_enable_disable_idempotent (p : digilent_hdmi_private) :
  let disabled := set_clk_enabled false p in
  let twice := (digilent_hdmi_encoder_enable ;;
                digilent_hdmi_encoder_enable) disabled in
  calls twice = [clk_prepare_enable (hdmi_clock p)]
  /\ Log.count Log.is_clk_start (calls twice) = 1%nat
  /\ final twice = set_clk_enabled true p
  /\ digilent_hdmi_encoder_disable disabled = (tt, disabled, [])
  /\ Log.count Log.is_clk_stop
       (calls (digilent_hdmi_encoder_disable disabled)) = 0%nat.
Proof.
  intros disabled twice.
  assert (Hd : clk_enabled disabled = false) by reflexivity.
  assert (Htwice : twice
            = (tt, set_clk_enabled true p,
               [clk_prepare_enable (hdmi_clock p)])).
  { unfold twice, bind at 1.
    rewrite (enable_when_disabled disabled Hd).
    rewrite enable_when_enabled by reflexivity.
    reflexivity. }
  rewrite Htwice, (disable_when_disabled disabled Hd).
  repeat split.
Qed.

End EncoderSpec.

(** ** C integer conversions *)

Module CFacts.
Import C.

Lemma to_unsigned_small n x : 0 <= x < 2 ^ n -> to_unsigned n x = x.
Proof. intros H. unfold to_unsigned. apply Z.mod_small. exact H. Qed.

Lemma to_unsigned_range n x : 0 <= n -> 0 <= to_unsigned n x < 2 ^ n.
Proof.
  intros H. unfold to_unsigned. apply Z.mod_pos_bound.
  apply Z.pow_pos_nonneg; lia.
Qed.

Lemma to_uint_small x : 0 <= x < 2 ^ 32 -> to_uint x = x.
Proof. apply to_unsigned_small. Qed.

Lemma to_uint_range x : 0 <= to_uint x < 2 ^ 32.
Proof. apply to_unsigned_range. lia. Qed.

Lemma to_int_small x : - 2 ^ 31 <= x < 2 ^ 31 -> to_int x = x.
Proof.
  intros H. unfold to_int, to_signed.
  change (2 ^ (32 - 1)) with (2 ^ 31).
  rewrite Z.mod_small; lia.
Qed.

Lemma bits_ge_32 w : 32 <= bits w.
Proof. destruct w; simpl; lia. Qed.

Lemma pow_bits_ge w : 2 ^ 32 <= 2 ^ bits w.
Proof. apply Z.pow_le_mono_r; [lia | apply bits_ge_32]. Qed.

Lemma to_word_small w x : 0 <= x < 2 ^ bits w -> to_word w x = x.
Proof. apply to_unsigned_small. Qed.

Lemma to_word_range w x : 0 <= to_word w x < 2 ^ bits w.
Proof. apply to_unsigned_range. pose proof (bits_ge_32 w). lia. Qed.

(** An [unsigned int] value is unchanged by widening it to [size_t]. *)
Lemma to_word_uint w x : to_word w (to_uint x) = to_uint x.
Proof.
  apply to_word_small.
  pose proof (to_uint_range x). pose proof (pow_bits_ge w). lia.
Qed.

(** Mixed [int]/[unsigned int] sums are sums modulo 2^32. *)
Lemma to_uint_int_plus a c : to_uint (to_int a + c) = to_uint (a + c).
Proof.
  unfold to_uint, to_int, to_unsigned, to_signed.
  change (2 ^ (32 - 1)) with (2 ^ 31).
  replace ((a + 2 ^ 31) mod 2 ^ 32 - 2 ^ 31 + c)
    with ((a + 2 ^ 31) mod 2 ^ 32 + (c - 2 ^ 31)) by ring.
  rewrite Zplus_mod_idemp_l. f_equal. ring.
Qed.

Lemma to_uint_plus_uint a c : to_uint (a + to_uint c) = to_uint (a + c).
Proof. unfold to_uint, to_unsigned. apply Zplus_mod_idemp_r. Qed.

Lemma to_uint_uint_mul a c : to_uint (to_uint a * c) = to_uint (a * c).
Proof. unfold to_uint, to_unsigned. apply Zmult_mod_idemp_l. Qed.

Lemma int_div_nonneg a b :
  0 <= a < 2 ^ 31 -> 0 < b -> int_div a b = Some (a / b).
Proof.
  intros Ha Hb. unfold int_div.
  destruct (Z.eqb_spec b 0) as [E | _]; [lia |].
  destruct (Z.eqb_spec b (-1)) as [E | _]; [lia |].
  rewrite andb_false_r. cbn [orb].
  rewrite Z.quot_div_nonneg by lia. reflexivity.
Qed.

Lemma int_div_by_zero a : int_div a 0 = None.
Proof. reflexivity. Qed.

End CFacts.

(** ** Timing/CRTC controller *)

Module CrtcSpec.
Import Crtc.

Lemma begin_no_event p :
  event (crtc p) = None -> digilent_hdmi_crtc_atomic_begin p = (tt, p, []).
Proof.
  intros H. unfold digilent_hdmi_crtc_atomic_begin, bind, get.
  rewrite H. reflexivity.
Qed.

Lemma begin_with_event p e :
  event (crtc p) = Some e ->
  digilent_hdmi_crtc_atomic_begin p
  = (tt, with_event None p,
     [spin_lock_irq; drm_crtc_send_vblank_event e; spin_unlock_irq]).
Proof.
  intros H. unfold digilent_hdmi_crtc_atomic_begin, bind, get.
  rewrite H. reflexivity.
Qed.

Lemma begin_frames_no_event n p :
  event (crtc p) = None -> begin_frames n p = (tt, p, []).
Proof.
  intros H. induction n as [| k IH]; [reflexivity |].
  cbn [begin_frames]. unfold bind.
  rewrite (begin_no_event p H), IH. reflexivity.
Qed.

Lemma begin_frames_with_event n p e :
  event (crtc p) = Some e ->
  begin_frames (S n) p
  = (tt, with_event None p,
     [spin_lock_irq; drm_crtc_send_vblank_event e; spin_unlock_irq]).
Proof.
  intros H. cbn [begin_frames]. unfold bind.
  rewrite (begin_with_event p e H).
  rewrite begin_frames_no_event by reflexivity.
  reflexivity.
Qed.

(** C7.  With one vblank event pending, any non-empty run of begin-frame
    passes signals that event exactly once, under the event lock, and leaves
    the pending slot empty; two passes in a row therefore signal once, not
    twice and not zero times.  With nothing pending, no pass signals. *)
Theorem vblank_event_signalled_once
  (p : digilent_hdmi_private) (e : drm_pending_vblank_event) (n : nat) :
  let pending := with_event (Some e) p in
  let r := begin_frames (S n) pending in
  let two := (digilent_hdmi_crtc_atomic_begin ;;
              digilent_hdmi_crtc_atomic_begin) pending in
  calls r = [spin_lock_irq; drm_crtc_send_vblank_event e; spin_unlock_irq]
  /\ Log.count Log.is_vblank_signal (calls r) = 1%nat
  /\ event (crtc (final r)) = None
  /\ Log.count Log.is_vblank_signal (calls two) = 1%nat
  /\ event (crtc (final two)) = None
  /\ calls (begin_frames n (with_event None p)) = [].
Proof.
  intros pending r two.
  assert (Hr : r = (tt, with_event None pending,
                    [spin_lock_irq; drm_crtc_send_vblank_event e;
                     spin_unlock_irq])).
  { apply begin_frames_with_event. reflexivity. }
  assert (Htwo : two = r).
  { rewrite Hr. unfold two, bind.
    rewrite (begin_with_event pending e) by reflexivity.
    rewrite begin_no_event by reflexivity. reflexivity. }
  rewrite Htwo, Hr.
  rewrite begin_frames_no_event by reflexivity.
  repeat split.
Qed.

Lemma enable_computes p vrefresh ms :
  C.int_div (C.to_int (clock (adjusted_mode (crtc p)) * 1000))
            (C.to_int (vtotal (adjusted_mode (crtc p))
                       * htotal (adjusted_mode (crtc p)))) = Some vrefresh ->
  C.int_div (1 * 1000) vrefresh = Some ms ->
  digilent_hdmi_crtc_enable p
  = (returned, p, bridge_setup p ++ [msleep (C.to_uint ms)]).
Proof.
  intros Hv Hms. unfold digilent_hdmi_crtc_enable, bind, get, bridge_setup.
  rewrite Hv, Hms.
  destruct (negb (is_null (vtc_bridge p))); reflexivity.
Qed.

Lemma sleeps_after_bridge_setup p ms :
  Log.sleeps (bridge_setup p ++ [msleep ms]) = [ms].
Proof.
  unfold bridge_setup.
  destruct (negb (is_null (vtc_bridge p))); reflexivity.
Qed.

(** C3 (as the code has it).  For a mode whose pixel clock in Hz and whose
    total size fit an [int] and whose refresh rate is at least 1 Hz, the
    enable hook returns after requesting one delay of
    [1000 / vrefresh] milliseconds, where
    [vrefresh = clock_hz / (vtotal * htotal)] and both divisions truncate.
    There is no floor: the delay is at least 1 ms exactly when the refresh
    rate is at most 1000 Hz, and it is 0 ms above that. *)
Theorem settle_delay_truncates (p : digilent_hdmi_private) :
  let m := adjusted_mode (crtc p) in
  let vrefresh := (clock m * 1000) / (vtotal m * htotal m) in
  0 <= clock m * 1000 < 2 ^ 31 ->
  0 < vtotal m * htotal m < 2 ^ 31 ->
  vtotal m * htotal m <= clock m * 1000 ->
  result (digilent_hdmi_crtc_enable p) = returned
  /\ Log.sleeps (calls (digilent_hdmi_crtc_enable p)) = [1000 / vrefresh]
  /\ (1 <= 1000 / vrefresh <-> vrefresh <= 1000)
  /\ (1000 < vrefresh ->
      Log.sleeps (calls (digilent_hdmi_crtc_enable p)) = [0]).
Proof.
  intros m vrefresh Hc Ht Hle.
  assert (Hv1 : 1 <= vrefresh).
  { unfold vrefresh. apply Z.div_le_lower_bound; lia. }
  assert (Hv2 : vrefresh < 2 ^ 31).
  { unfold vrefresh.
    assert (clock m * 1000 / (vtotal m * htotal m) <= clock m * 1000)
      by (apply Z.div_le_upper_bound; nia).
    lia. }
  assert (Hms : 0 <= 1000 / vrefresh <= 1000).
  { split; [apply Z.div_pos; lia |].
    apply Z.div_le_upper_bound; nia. }
  assert (Hrun : digilent_hdmi_crtc_enable p
                 = (returned, p, bridge_setup p ++ [msleep (1000 / vrefresh)])).
  { rewrite (enable_computes p vrefresh (1000 / vrefresh)).
    - rewrite CFacts.to_uint_small by lia. reflexivity.
    - fold m. rewrite !CFacts.to_int_small by lia.
      apply CFacts.int_div_nonneg; lia.
    - change (1 * 1000) with 1000. apply CFacts.int_div_nonneg; lia. }
  rewrite Hrun. unfold result, calls; cbn [fst snd].
  rewrite sleeps_after_bridge_setup.
  split; [reflexivity |]. split; [reflexivity |]. split.
  - split; intros H.
    + destruct (Z_le_gt_dec vrefresh 1000) as [L | G]; [exact L |].
      rewrite Z.div_small in H by lia. lia.
    + apply Z.div_le_lower_bound; lia.
  - intros G. rewrite Z.div_small by lia. reflexivity.
Qed.

(** Below 1 Hz the computed refresh rate is 0 and the delay computation
    divides by it, which C leaves undefined; no delay was requested before
    that division. *)
Lemma settle_delay_undefined_below_1_Hz (p : digilent_hdmi_private) :
  let m := adjusted_mode (crtc p) in
  0 <= clock m * 1000 < vtotal m * htotal m ->
  vtotal m * htotal m < 2 ^ 31 ->
  result (digilent_hdmi_crtc_enable p) = undefined_division
  /\ Log.sleeps (calls (digilent_hdmi_crtc_enable p)) = [].
Proof.
  intros m Hc Ht.
  unfold digilent_hdmi_crtc_enable, bind, get. fold m.
  rewrite !CFacts.to_int_small by lia.
  rewrite CFacts.int_div_nonneg by lia.
  rewrite Z.div_small by lia. rewrite CFacts.int_div_by_zero.
  destruct (negb (is_null (vtc_bridge p))); split; reflexivity.
Qed.

(** Disabling the CRTC disables the bridge and then terminates the plane's
    transfer. *)
Lemma crtc_disable_stops_dma (p : digilent_hdmi_private) :
  digilent_hdmi_crtc_disable p
  = (tt, p, [xlnx_bridge_disable (vtc_bridge p);
             dmaengine_terminate_all (dma p)]).
Proof. reflexivity. Qed.

(** At 1080p60 (148.5 MHz over 2200x1125) the refresh rate is 60 Hz and the
    delay 16 ms. *)
Lemma settle_delay_1080p60 :
  result (digilent_hdmi_crtc_enable Examples.board) = returned
  /\ Log.sleeps (calls (digilent_hdmi_crtc_enable Examples.board)) = [16].
Proof.
  destruct (settle_delay_truncates Examples.board) as (Hret & Hms & _).
  - cbn. lia.
  - cbn. lia.
  - cbn. lia.
  - split; [exact Hret | exact Hms].
Defined.

(** C3, counterexample.  A 400x300 total driven at 150 MHz refreshes at
    1250 Hz; the hook returns after asking for a delay of 0 ms. *)
Lemma settle_delay_zero_at_1250_Hz :
  result (digilent_hdmi_crtc_enable
            (with_mode Examples.mode_320x240_fast Examples.board)) = returned
  /\ Log.sleeps (calls (digilent_hdmi_crtc_enable
                          (with_mode Examples.mode_320x240_fast
                                     Examples.board))) = [0].
Proof. split; vm_compute; reflexivity. Qed.

End CrtcSpec.

(** ** Plane controller and descriptor builder *)

Module PlaneSpec.
Import Crtc.

Section Platform.

Variable size_t : C.width.
Variable dma_addr_t : C.width.
Variable vdma_prep :
  ptr dma_chan -> dma_interleaved_template -> list dma_ctrl_flags ->
  option dma_async_tx_descriptor.

Local Abbreviation fill := (fill_template size_t dma_addr_t).
Local Abbreviation prep :=
  (digilent_hdmi_vdma_prep_interleaved_desc size_t dma_addr_t vdma_prep).
Local Abbreviation update :=
  (digilent_hdmi_plane_atomic_update size_t dma_addr_t vdma_prep).

(** The template in terms of arithmetic modulo the width of each type. *)
Lemma fill_template_modular old st f :
  fill old st f
  = {| dir := DMA_MEM_TO_DEV;
       src_start :=
         C.to_word dma_addr_t
           (paddr f + C.to_uint (crtc_x st * cpp0 f + crtc_y st * pitches0 f));
       dst_start := dst_start old;
       frame_size := 1;
       numf := C.to_word size_t (crtc_h st);
       src_sgl := true; src_inc := true; dst_inc := false; dst_sgl := false;
       sgl0 := {| size := C.to_uint (crtc_w st * cpp0 f);
                  icg := C.to_word size_t
                           (pitches0 f - C.to_uint (crtc_w st * cpp0 f)) |} |}.
Proof.
  unfold fill_template.
  rewrite !CFacts.to_word_uint.
  rewrite CFacts.to_uint_int_plus, CFacts.to_uint_plus_uint.
  rewrite <- (CFacts.to_uint_plus_uint (crtc_x st * cpp0 f)
                (C.to_uint (crtc_y st) * pitches0 f)).
  rewrite CFacts.to_uint_uint_mul, CFacts.to_uint_plus_uint.
  reflexivity.
Qed.

(** The template does not depend on what it held before, [dst_start]
    apart. *)
Lemma fill_template_overwrites old old' st f :
  dst_start old' = dst_start old -> fill old' st f = fill old st f.
Proof. intros H. unfold fill_template. rewrite H. reflexivity. Qed.

Lemma prep_run f p :
  prep f p
  = (vdma_prep (dma p) (fill (dma_template p) (plane p) f) prep_flags,
     set_dma_template (fill (dma_template p) (plane p) f) p,
     [dmaengine_prep_interleaved_dma (dma p)
        (fill (dma_template p) (plane p) f) prep_flags
        (desc_ptr (vdma_prep (dma p) (fill (dma_template p) (plane p) f)
                     prep_flags))]).
Proof. reflexivity. Qed.

Lemma fill_template_valid old st f :
  valid_geometry dma_addr_t st f ->
  fill old st f
  = {| dir := DMA_MEM_TO_DEV;
       src_start := paddr f + crtc_y st * pitches0 f + crtc_x st * cpp0 f;
       dst_start := dst_start old;
       frame_size := 1;
       numf := crtc_h st;
       src_sgl := true; src_inc := true; dst_inc := false; dst_sgl := false;
       sgl0 := {| size := crtc_w st * cpp0 f;
                  icg := pitches0 f - crtc_w st * cpp0 f |} |}.
Proof.
  intros (Hx & Hy & Hw & Hh & Hc & Hp & Ha & Hrow & Hoff & Haddr).
  rewrite fill_template_modular.
  assert (0 <= crtc_x st * cpp0 f) by nia.
  assert (0 <= crtc_w st * cpp0 f) by nia.
  assert (0 <= crtc_y st * pitches0 f) by nia.
  pose proof (CFacts.pow_bits_ge size_t).
  rewrite (CFacts.to_uint_small (crtc_x st * cpp0 f + crtc_y st * pitches0 f))
    by lia.
  rewrite (CFacts.to_uint_small (crtc_w st * cpp0 f)) by lia.
  rewrite !CFacts.to_word_small by lia.
  f_equal. lia.
Qed.

(** C4.  The descriptor the builder leaves in the template is a function
    of the geometry alone.  For every input the direction is
    memory-to-device, each frame is one chunk, the destination side does not
    advance, and the address, row size, frame count and gap are the C values
    of [base + y * stride + x * pixel_size], [width * pixel_size], [height]
    and [stride - width * pixel_size]; for every valid geometry (where no C
    computation wraps) they are exactly these numbers.  The request handed
    to the DMA engine is that template, and running the builder from any
    other private data with the same plane state (and the never-assigned
    [dst_start]) yields the identical template. *)
Theorem descriptor_is_function_of_geometry
  (p : digilent_hdmi_private) (f : drm_framebuffer) :
  let r := prep f p in
  let xt := dma_template (final r) in
  let st := plane p in
  dir xt = DMA_MEM_TO_DEV
  /\ frame_size xt = 1
  /\ (src_inc xt, src_sgl xt, dst_inc xt, dst_sgl xt)
     = (true, true, false, false)
  /\ src_start xt
     = C.to_word dma_addr_t
         (paddr f + C.to_uint (crtc_x st * cpp0 f + crtc_y st * pitches0 f))
  /\ size (sgl0 xt) = C.to_uint (crtc_w st * cpp0 f)
  /\ numf xt = C.to_word size_t (crtc_h st)
  /\ icg (sgl0 xt) = C.to_word size_t (pitches0 f - size (sgl0 xt))
  /\ (valid_geometry dma_addr_t st f ->
      src_start xt = paddr f + crtc_y st * pitches0 f + crtc_x st * cpp0 f
      /\ size (sgl0 xt) = crtc_w st * cpp0 f
      /\ numf xt = crtc_h st
      /\ icg (sgl0 xt) = pitches0 f - crtc_w st * cpp0 f)
  /\ result r = vdma_prep (dma p) xt prep_flags
  /\ (forall p' : digilent_hdmi_private,
        plane p' = plane p ->
        dst_start (dma_template p') = dst_start (dma_template p) ->
        dma_template (final (prep f p')) = xt).
Proof.
  intros r xt st.
  assert (Hxt : xt = fill (dma_template p) st f) by reflexivity.
  assert (Hsame : forall p' : digilent_hdmi_private,
            plane p' = plane p ->
            dst_start (dma_template p') = dst_start (dma_template p) ->
            dma_template (final (prep f p')) = xt).
  { intros p' Hplane Hdst. rewrite prep_run. unfold final; cbn [fst snd].
    change (fill (dma_template p') (plane p') f = xt).
    rewrite Hplane, Hxt. apply fill_template_overwrites. exact Hdst. }
  assert (Hres : result r = vdma_prep (dma p) xt prep_flags).
  { unfold r. rewrite prep_run. rewrite Hxt. reflexivity. }
  assert (Hvalid : valid_geometry dma_addr_t st f ->
            src_start xt
            = paddr f + crtc_y st * pitches0 f + crtc_x st * cpp0 f
            /\ size (sgl0 xt) = crtc_w st * cpp0 f
            /\ numf xt = crtc_h st
            /\ icg (sgl0 xt) = pitches0 f - crtc_w st * cpp0 f).
  { intros Hv. rewrite Hxt, (fill_template_valid _ _ _ Hv).
    cbn [src_start sgl0 size numf icg]. auto. }
  pose proof (fill_template_modular (dma_template p) st f) as E.
  rewrite <- Hxt in E.
  rewrite E at 1 2 3 4 5 6 7 8 9 10 11.
  cbn [dir src_start frame_size sgl0 size numf icg src_inc src_sgl dst_inc
       dst_sgl].
  intuition auto.
Qed.

(** C2 (as the code has it).  The builder makes no geometry check.  The gap
    is the [size_t] difference of the stride and the hardware row size, so
    the stored field is never negative: it is the plain difference when the
    row fits the stride and wraps by [2 ^ bits] when it does not.  Whatever
    the geometry, the template is handed to the DMA engine, and the builder
    fails exactly when the engine returns no descriptor. *)
Theorem gap_is_unsigned_difference
  (p : digilent_hdmi_private) (f : drm_framebuffer) :
  0 <= pitches0 f < 2 ^ 32 ->
  let r := prep f p in
  let xt := dma_template (final r) in
  let row := size (sgl0 xt) in
  row = C.to_uint (crtc_w (plane p) * cpp0 f)
  /\ 0 <= icg (sgl0 xt) < 2 ^ C.bits size_t
  /\ (row <= pitches0 f -> icg (sgl0 xt) = pitches0 f - row)
  /\ (pitches0 f < row ->
      icg (sgl0 xt) = pitches0 f - row + 2 ^ C.bits size_t)
  /\ calls r
     = [dmaengine_prep_interleaved_dma (dma p) xt prep_flags
          (desc_ptr (vdma_prep (dma p) xt prep_flags))]
  /\ result r = vdma_prep (dma p) xt prep_flags.
Proof.
  intros Hp r xt row.
  assert (Hxt : xt = fill (dma_template p) (plane p) f) by reflexivity.
  assert (Hrow : row = C.to_uint (crtc_w (plane p) * cpp0 f)).
  { unfold row. rewrite Hxt, fill_template_modular. reflexivity. }
  assert (Hicg : icg (sgl0 xt) = C.to_word size_t (pitches0 f - row)).
  { rewrite Hrow, Hxt, fill_template_modular. reflexivity. }
  pose proof (CFacts.to_uint_range (crtc_w (plane p) * cpp0 f)) as Hr.
  rewrite <- Hrow in Hr.
  pose proof (CFacts.pow_bits_ge size_t) as Hb.
  split; [exact Hrow |].
  split; [rewrite Hicg; apply CFacts.to_word_range |].
  split; [| split; [| split]].
  - intros Hle. rewrite Hicg. apply CFacts.to_word_small. lia.
  - intros Hlt. rewrite Hicg. unfold C.to_word, C.to_unsigned.
    symmetry. apply (Z.mod_unique_pos _ _ (-1)); lia.
  - unfold r. rewrite prep_run. rewrite Hxt. reflexivity.
  - unfold r. rewrite prep_run. rewrite Hxt. reflexivity.
Qed.

Lemma update_noop p :
  ps_crtc (plane p) = None \/ fb (plane p) = None -> update p = (tt, p, []).
Proof.
  intros H. unfold digilent_hdmi_plane_atomic_update, bind, get.
  destruct H as [H | H]; rewrite H; [reflexivity |].
  destruct (ps_crtc (plane p)); reflexivity.
Qed.

Lemma update_run p c f :
  ps_crtc (plane p) = Some c -> fb (plane p) = Some f ->
  let xt := fill (dma_template p) (plane p) f in
  let desc := vdma_prep (dma p) xt prep_flags in
  update p
  = (tt, set_dma_template xt p,
     dmaengine_terminate_all (dma p)
     :: dmaengine_prep_interleaved_dma (dma p) xt prep_flags (desc_ptr desc)
     :: match desc with
        | None => [DRM_ERROR "failed to prepare dma descriptor"]
        | Some d => [dmaengine_submit d; dma_async_issue_pending (dma p)]
        end).
Proof.
  intros Hc Hf xt desc.
  unfold digilent_hdmi_plane_atomic_update, bind at 1. unfold get at 1.
  rewrite Hc, Hf. unfold bind at 1. unfold do_call at 1.
  unfold bind at 1. rewrite prep_run. fold xt. fold desc.
  destruct desc; reflexivity.
Qed.

(** C6.  A plane update with no CRTC attached or no framebuffer bound makes
    no call at all and changes nothing.  Otherwise its first call
    terminates the transfer in flight; if the DMA engine then returns no
    descriptor, the update stops after reporting the error, with nothing
    submitted and nothing issued; if it returns one, that descriptor is
    submitted and issued, in this order, and nothing else happens. *)
Theorem plane_update_all_or_nothing (p : digilent_hdmi_private) :
  let r := update p in
  (ps_crtc (plane p) = None \/ fb (plane p) = None ->
   r = (tt, p, []) /\ Log.count Log.is_dma_call (calls r) = 0%nat)
  /\ (forall c f,
        ps_crtc (plane p) = Some c -> fb (plane p) = Some f ->
        let xt := fill (dma_template p) (plane p) f in
        hd_error (calls r) = Some (dmaengine_terminate_all (dma p))
        /\ (vdma_prep (dma p) xt prep_flags = None ->
            calls r
            = [dmaengine_terminate_all (dma p);
               dmaengine_prep_interleaved_dma (dma p) xt prep_flags NULL;
               DRM_ERROR "failed to prepare dma descriptor"]
            /\ Log.count Log.is_submit (calls r) = 0%nat)
        /\ (forall d,
              vdma_prep (dma p) xt prep_flags = Some d ->
              calls r
              = [dmaengine_terminate_all (dma p);
                 dmaengine_prep_interleaved_dma (dma p) xt prep_flags (PTR d);
                 dmaengine_submit d;
                 dma_async_issue_pending (dma p)])).
Proof.
  intros r. split.
  - intros H. unfold r. rewrite (update_noop p H). split; reflexivity.
  - intros c f Hc Hf xt.
    pose proof (update_run p c f Hc Hf) as Hrun. cbv zeta in Hrun.
    fold xt in Hrun. unfold r. rewrite Hrun. unfold calls; cbn [snd].
    split; [reflexivity |]. split.
    + intros Hnone. rewrite Hnone. split; reflexivity.
    + intros d Hsome. rewrite Hsome. reflexivity.
Qed.

End Platform.

(** The 1280x720 window at (16, 8) of the 1080p framebuffer, on a 32-bit
    platform: rows of 5120 bytes, 2560 bytes apart, from byte 61504 of the
    buffer. *)
Lemma descriptor_of_window :
  let p := Examples.set_plane Examples.plane_window Examples.board in
  let xt := dma_template (final (digilent_hdmi_vdma_prep_interleaved_desc
              C.w32 C.w32 Examples.accept_all Examples.fb_1080p p)) in
  src_start xt = 268496960 /\ size (sgl0 xt) = 5120 /\ numf xt = 720
  /\ icg (sgl0 xt) = 2560.
Proof.
  intros p xt.
  assert (Hvalid : valid_geometry C.w32 (plane p) Examples.fb_1080p).
  { unfold valid_geometry. cbn. lia. }
  destruct (descriptor_is_function_of_geometry C.w32 C.w32
              Examples.accept_all p Examples.fb_1080p)
    as (_ & _ & _ & _ & _ & _ & _ & Hexact & _).
  destruct (Hexact Hvalid) as (Hsrc & Hsize & Hnumf & Hicg).
  repeat split; assumption.
Defined.

(** The same window: the stored gap is the plain difference. *)
Lemma gap_of_window :
  let p := Examples.set_plane Examples.plane_window Examples.board in
  let xt := dma_template (final (digilent_hdmi_vdma_prep_interleaved_desc
              C.w32 C.w32 Examples.accept_all Examples.fb_1080p p)) in
  0 <= icg (sgl0 xt) < 2 ^ 32 /\ icg (sgl0 xt) = 7680 - 5120.
Proof.
  intros p xt.
  assert (Hp : 0 <= pitches0 Examples.fb_1080p < 2 ^ 32) by (cbn; lia).
  destruct (gap_is_unsigned_difference C.w32 C.w32 Examples.accept_all
              p Examples.fb_1080p Hp)
    as (Hrow & Hrange & Hfit & _).
  split; [exact Hrange |].
  apply Hfit. vm_compute. discriminate.
Defined.

(** C2, counterexample.  A plane 1920 pixels wide on a framebuffer whose
    rows hold 2560 bytes: the stride minus the row size is -5120, yet the
    builder hands the template to the DMA engine with a gap of
    [2 ^ 32 - 5120], returns the engine's descriptor, and the update
    submits and issues it. *)
Lemma negative_gap_is_submitted :
  let p := Examples.set_plane Examples.plane_too_wide Examples.board in
  let r := digilent_hdmi_vdma_prep_interleaved_desc
             C.w32 C.w32 Examples.accept_all Examples.fb_vga p in
  pitches0 Examples.fb_vga - crtc_w (plane p) * cpp0 Examples.fb_vga = -5120
  /\ result r = Some 7
  /\ icg (sgl0 (dma_template (final r))) = 4294962176
  /\ filter Log.is_submit
       (calls (digilent_hdmi_plane_atomic_update
                 C.w32 C.w32 Examples.accept_all p))
     = [dmaengine_submit 7; dma_async_issue_pending (PTR 1)].
Proof. cbv zeta. repeat split; vm_compute; reflexivity. Qed.

(** C4, counterexample.  The formulas of the claim are not what the builder
    stores for every input.  With the window one pixel left of the first
    column (x = -1) and a 64-bit [dma_addr_t], [base + y * stride + x *
    pixel_size] is 268435452, but the byte offset -4 is an [unsigned int]
    and the stored start address is [base + 2 ^ 32 - 4].  With the plane
    wider than the framebuffer, [stride - width * pixel_size] is -5120 and
    the stored gap is [2 ^ 32 - 5120]. *)
Lemma descriptor_wraps_outside_valid_geometry :
  let left := Examples.set_plane Examples.plane_left_of_origin
                Examples.board in
  let wide := Examples.set_plane Examples.plane_too_wide Examples.board in
  let xt_left :=
    dma_template
      (final (digilent_hdmi_vdma_prep_interleaved_desc
                C.w64 C.w64 Examples.accept_all Examples.fb_1080p left)) in
  let xt_wide :=
    dma_template
      (final (digilent_hdmi_vdma_prep_interleaved_desc
                C.w32 C.w32 Examples.accept_all Examples.fb_vga wide)) in
  src_start xt_left = 4563402748
  /\ src_start xt_left
     <> paddr Examples.fb_1080p
        + crtc_y (plane left) * pitches0 Examples.fb_1080p
        + crtc_x (plane left) * cpp0 Examples.fb_1080p
  /\ icg (sgl0 xt_wide) = 4294962176
  /\ icg (sgl0 xt_wide)
     <> pitches0 Examples.fb_vga
        - crtc_w (plane wide) * cpp0 Examples.fb_vga.
Proof.
  cbv zeta.
  split; [vm_compute; reflexivity |].
  split; [vm_compute; intros H; discriminate H |].
  split; [vm_compute; reflexivity |].
  vm_compute; intros H; discriminate H.
Qed.

(** A refused descriptor on the same board: terminate, the failed prepare
    and the error report, nothing submitted. *)
Lemma refused_update_submits_nothing :
  let p := Examples.set_plane Examples.plane_window Examples.board in
  Log.count Log.is_submit
    (calls (digilent_hdmi_plane_atomic_update
              C.w32 C.w32 Examples.refuse_all p)) = 0%nat
  /\ hd_error (calls (digilent_hdmi_plane_atomic_update
                        C.w32 C.w32 Examples.refuse_all p))
     = Some (dmaengine_terminate_all (PTR 1)).
Proof.
  intros p.
  destruct (plane_update_all_or_nothing C.w32 C.w32 Examples.refuse_all p)
    as (_ & Hrun).
  destruct (Hrun 0 Examples.fb_1080p eq_refl eq_refl)
    as (Hfirst & Hfail & _).
  destruct (Hfail eq_refl) as (_ & Hnone).
  split; [exact Hnone | exact Hfirst].
Defined.

End PlaneSpec.

(** ** Sink/connector negotiator *)

Module ConnectorSpec.
Import Connector.

Lemma land_union_zero f a b c :
  Z.land f (Z.lor (Z.lor a b) c) = 0
  <-> Z.land f a = 0 /\ Z.land f b = 0 /\ Z.land f c = 0.
Proof.
  rewrite !Z.land_lor_distr_r, !Z.lor_eq_0_iff. tauto.
Qed.

Section ModeValid.

Variable INTERLACE DBLCLK MASK_3D : Z.

Local Abbreviation mode_valid :=
  (digilent_hdmi_connector_mode_valid INTERLACE DBLCLK MASK_3D).

Local Abbreviation unsupported :=
  (unsupported_flags INTERLACE DBLCLK MASK_3D).

Lemma flags_test fl :
  (Z.land fl (Z.lor (Z.lor INTERLACE DBLCLK) MASK_3D) =? 0) = true
  <-> ~ unsupported fl.
Proof.
  rewrite Z.eqb_eq, land_union_zero. unfold unsupported_flags.
  destruct (Z.eq_dec (Z.land fl INTERLACE) 0),
           (Z.eq_dec (Z.land fl DBLCLK) 0),
           (Z.eq_dec (Z.land fl MASK_3D) 0); tauto.
Qed.

Lemma mode_valid_ok private m :
  mode_valid private (Some m) = MODE_OK
  <-> ~ unsupported (flags m)
      /\ C.to_uint (clock m) <= fmax private
      /\ C.to_uint (hdisplay m) <= hmax private
      /\ C.to_uint (vdisplay m) <= vmax private.
Proof.
  unfold digilent_hdmi_connector_mode_valid.
  rewrite <- flags_test, <- !Z.leb_le.
  destruct (Z.land (flags m) _ =? 0), (_ <=? fmax private),
           (_ <=? hmax private), (_ <=? vmax private);
    cbn; intuition congruence.
Qed.

(** C5.  A mode with the interlace, the double-clock or any 3D flag set is
    rejected whatever its size and clock.  A mode with none of them (and,
    as every display mode, a non-negative clock and size) is accepted if and
    only if its pixel clock, horizontal and vertical active size are each at
    most the corresponding ceiling, and rejected otherwise; a mode exactly
    at the three ceilings is accepted. *)
Theorem mode_valid_iff_within_limits
  (private : digilent_hdmi_private) (m : drm_display_mode) :
  let within :=
    clock m <= fmax private /\ hdisplay m <= hmax private
    /\ vdisplay m <= vmax private in
  (unsupported (flags m) -> mode_valid private (Some m) = MODE_BAD)
  /\ (~ unsupported (flags m) ->
      0 <= clock m < 2 ^ 31 -> 0 <= hdisplay m < 2 ^ 31 ->
      0 <= vdisplay m < 2 ^ 31 ->
      (mode_valid private (Some m) = MODE_OK <-> within)
      /\ (mode_valid private (Some m) = MODE_BAD <-> ~ within)
      /\ (clock m = fmax private -> hdisplay m = hmax private ->
          vdisplay m = vmax private ->
          mode_valid private (Some m) = MODE_OK)).
Proof.
  intros within.
  pose proof (mode_valid_ok private m) as Hok.
  assert (Hcases : mode_valid private (Some m) = MODE_OK
                   \/ mode_valid private (Some m) = MODE_BAD)
    by (destruct (mode_valid private (Some m)); auto).
  split.
  - intros Hflag. destruct Hcases as [E | E]; [| exact E].
    apply Hok in E. tauto.
  - intros Hclear Hc Hh Hv.
    rewrite !CFacts.to_uint_small in Hok by lia. fold within in Hok.
    split; [tauto |]. split.
    + split.
      * intros Hbad Hin.
        assert (mode_valid private (Some m) = MODE_OK) by tauto.
        congruence.
      * intros Hout. destruct Hcases as [E | E]; [| exact E].
        apply Hok in E. tauto.
    + intros Ec Eh Ev. apply Hok. unfold within. split; [exact Hclear | lia].
Qed.

End ModeValid.

(** 1080i is rejected although its size and clock are within the limits. *)
Example interlaced_mode_rejected :
  digilent_hdmi_connector_mode_valid
    Examples.FLAG_INTERLACE Examples.FLAG_DBLCLK Examples.FLAG_3D_MASK
    Examples.board (Some Examples.mode_1080i) = MODE_BAD.
Proof. reflexivity. Qed.

(** With the built-in limits, the mode exactly at the three ceilings is
    accepted. *)
Lemma mode_at_ceilings_accepted :
  digilent_hdmi_connector_mode_valid
    Examples.FLAG_INTERLACE Examples.FLAG_DBLCLK Examples.FLAG_3D_MASK
    Examples.board (Some Examples.mode_at_ceilings) = MODE_OK.
Proof.
  assert (Hc : 0 <= clock Examples.mode_at_ceilings < 2 ^ 31) by (cbn; lia).
  assert (Hh : 0 <= hdisplay Examples.mode_at_ceilings < 2 ^ 31)
    by (cbn; lia).
  assert (Hv : 0 <= vdisplay Examples.mode_at_ceilings < 2 ^ 31)
    by (cbn; lia).
  destruct (mode_valid_iff_within_limits
              Examples.FLAG_INTERLACE Examples.FLAG_DBLCLK
              Examples.FLAG_3D_MASK Examples.board
              Examples.mode_at_ceilings)
    as (_ & Hclear).
  destruct Hclear as (_ & _ & Hedge); try assumption.
  - vm_compute. intros [H | [H | H]]; apply H; reflexivity.
  - apply Hedge; reflexivity.
Defined.

Section GetModes.

Variable table : list drm_display_mode.
Variable read_edid : ptr i2c_adapter -> option edid.
Variable edid_modes : edid -> list drm_display_mode.

Local Abbreviation get_modes :=
  (digilent_hdmi_connector_get_modes table read_edid edid_modes).

Lemma get_modes_without_channel p :
  i2c_bus p = NULL ->
  get_modes p
  = (Z.of_nat (List.length
                 (fallback_modes table (C.to_int (hmax p))
                    (C.to_int (vmax p)))),
     set_connector
       (set_preferred (C.to_int (hpref p)) (C.to_int (vpref p))
          (connector p
           ++ fallback_modes table (C.to_int (hmax p)) (C.to_int (vmax p))))
       p,
     [drm_add_modes_noedid (C.to_int (hmax p)) (C.to_int (vmax p));
      drm_set_preferred_mode (C.to_int (hpref p)) (C.to_int (vpref p))]).
Proof.
  intros H. unfold digilent_hdmi_connector_get_modes, bind at 1.
  unfold get at 1. rewrite H. reflexivity.
Qed.

Lemma has_size_clear h v m : has_size h v (clear_preferred m) = has_size h v m.
Proof. reflexivity. Qed.

Lemma has_size_mark h v m : has_size h v (mark_preferred m) = has_size h v m.
Proof. reflexivity. Qed.

Lemma has_size_distinguished h v :
  has_size h v (distinguished_mode h v) = true.
Proof.
  unfold has_size, distinguished_mode; cbn [hdisplay vdisplay].
  rewrite !Z.eqb_refl. reflexivity.
Qed.

(** No entry of a fallback set is marked. *)
Lemma fallback_unmarked t h v : preferred_modes (fallback_modes t h v) = [].
Proof.
  unfold preferred_modes, fallback_modes.
  induction (filter (fits_within h v) t) as [| m l IH]; [reflexivity |].
  cbn [map filter clear_preferred preferred]. exact IH.
Qed.

Lemma clear_fallback t h v :
  map clear_preferred (fallback_modes t h v) = fallback_modes t h v.
Proof.
  unfold fallback_modes. rewrite map_map. apply map_ext.
  intros m. reflexivity.
Qed.

(** On a list without marked entries [set_preferred] leaves exactly one
    marked entry, and it has the preferred size. *)
Lemma set_preferred_one h v :
  forall l : list drm_display_mode,
    preferred_modes l = [] ->
    exists m, preferred_modes (set_preferred h v l) = [m]
              /\ has_size h v m = true.
Proof.
  unfold preferred_modes.
  induction l as [| x l IH]; intros Hl.
  - exists (distinguished_mode h v).
    split; [reflexivity | apply has_size_distinguished].
  - cbn [filter] in Hl. destruct (preferred x) eqn:Ex; [discriminate Hl |].
    cbn [set_preferred]. destruct (has_size h v x) eqn:Es.
    + exists (mark_preferred x). cbn [filter mark_preferred preferred].
      rewrite Hl. split; [reflexivity |]. rewrite has_size_mark. exact Es.
    + cbn [filter]. rewrite Ex. apply IH. exact Hl.
Qed.

(** [set_preferred] keeps every entry, up to the mark. *)
Lemma set_preferred_keeps h v :
  forall l : list drm_display_mode,
    incl (map clear_preferred l)
         (map clear_preferred (set_preferred h v l)).
Proof.
  induction l as [| x l IH]; [intros m [] |].
  cbn [set_preferred]. destruct (has_size h v x).
  - cbn [map]. intros m [Hm | Hm]; [left | right; exact Hm].
    rewrite <- Hm. destruct x; reflexivity.
  - cbn [map]. intros m [Hm | Hm]; [left; exact Hm | right; apply IH, Hm].
Qed.

(** The unmarked entries [set_preferred] leaves were there before. *)
Lemma set_preferred_unmarked h v :
  forall (l : list drm_display_mode) (m : drm_display_mode),
    In m (set_preferred h v l) -> preferred m = false -> In m l.
Proof.
  induction l as [| x l IH]; intros m Hin Hm.
  - destruct Hin as [<- | []]. discriminate Hm.
  - cbn [set_preferred] in Hin. destruct (has_size h v x).
    + destruct Hin as [<- | Hin]; [discriminate Hm | right; exact Hin].
    + destruct Hin as [<- | Hin]; [left; reflexivity | right].
      apply IH; assumption.
Qed.

(** C9.  With no discovery channel, an empty probed list and limits that
    fit an [int], [get_modes] asks the core for the fallback modes of the
    (max-h, max-v) ceiling and then for the preferred mode of size
    (preferred-h, preferred-v), in this order, and returns the number of
    fallback modes.  The probed modes it leaves hold exactly one entry marked
    preferred, which has the preferred size, and the fallback set derived
    from the ceiling; every unmarked entry is one of the fallback set. *)
Theorem get_modes_fallback (p : digilent_hdmi_private) :
  i2c_bus p = NULL ->
  connector p = [] ->
  0 <= hmax p < 2 ^ 31 -> 0 <= vmax p < 2 ^ 31 ->
  0 <= hpref p < 2 ^ 31 -> 0 <= vpref p < 2 ^ 31 ->
  let r := get_modes p in
  let probed := connector (final r) in
  let fallback := fallback_modes table (hmax p) (vmax p) in
  result r = Z.of_nat (List.length fallback)
  /\ (exists m, preferred_modes probed = [m]
                /\ has_size (hpref p) (vpref p) m = true)
  /\ incl fallback (map clear_preferred probed)
  /\ (forall m, In m probed -> preferred m = false -> In m fallback)
  /\ calls r = [drm_add_modes_noedid (hmax p) (vmax p);
                drm_set_preferred_mode (hpref p) (vpref p)].
Proof.
  intros Hbus Hempty Hh Hv Hph Hpv r probed fallback.
  assert (Hr : r = (Z.of_nat (List.length fallback),
                    set_connector
                      (set_preferred (hpref p) (vpref p) fallback) p,
                    [drm_add_modes_noedid (hmax p) (vmax p);
                     drm_set_preferred_mode (hpref p) (vpref p)])).
  { unfold r. rewrite (get_modes_without_channel p Hbus), Hempty.
    rewrite !CFacts.to_int_small by lia. reflexivity. }
  assert (Hprobed : probed = set_preferred (hpref p) (vpref p) fallback).
  { unfold probed. rewrite Hr. reflexivity. }
  split; [rewrite Hr; reflexivity |].
  split; [rewrite Hprobed; apply set_preferred_one, fallback_unmarked |].
  split; [| split].
  - rewrite Hprobed. unfold fallback at 1.
    rewrite <- clear_fallback. apply set_preferred_keeps.
  - intros m Hin Hm. rewrite Hprobed in Hin.
    exact (set_preferred_unmarked _ _ _ _ Hin Hm).
  - rewrite Hr. reflexivity.
Qed.

End GetModes.

(** The board without an EDID bus: six standard timings fit the built-in
    1920x1080 ceiling, and one entry, of the built-in preferred size
    1280x720, is marked preferred. *)
Lemma get_modes_default_limits :
  let p := set_i2c_bus NULL Examples.board in
  let r := digilent_hdmi_connector_get_modes Examples.standard_timings
             Examples.no_edid Examples.no_edid_modes p in
  result r = 6
  /\ List.length (preferred_modes (connector (final r))) = 1%nat
  /\ (forall m, In m (preferred_modes (connector (final r))) ->
      has_size 1280 720 m = true).
Proof.
  intros p r.
  assert (Hfit : forall x, x = 1920 \/ x = 1080 \/ x = 1280 \/ x = 720 ->
                           0 <= x < 2 ^ 31) by (intros x H; lia).
  destruct (get_modes_fallback Examples.standard_timings Examples.no_edid
              Examples.no_edid_modes p eq_refl eq_refl
              (Hfit _ (or_introl eq_refl))
              (Hfit _ (or_intror (or_introl eq_refl)))
              (Hfit _ (or_intror (or_intror (or_introl eq_refl))))
              (Hfit _ (or_intror (or_intror (or_intror eq_refl)))))
    as (Hcount & (m & Hone & Hsize) & _).
  split; [exact Hcount |].
  fold r in Hone. rewrite Hone.
  split; [reflexivity |].
  intros m' [<- | []]. exact Hsize.
Defined.

End ConnectorSpec.

(** ** Pipeline lifecycle manager *)

Module DrvSpec.
Import Drv.

Section ParseOf.

Variable EPROBE_DEFER : Z.

Local Abbreviation parse_of := (digilent_hdmi_parse_of EPROBE_DEFER).

(** Case analysis on what the platform answers, each case by computation. *)
Local Ltac by_cases c d vtc ed br ad Hb :=
  destruct c, d, vtc as [?n |], ed as [?k |]; cbn;
  try (match goal with n : device_node |- context [br ?m] =>
         destruct (br m) eqn:?Hbr; cbn end);
  try (match goal with k : device_node |- context [ad ?m] =>
         destruct (ad m) eqn:?Had; cbn end);
  try rewrite Hb; cbn.

(** C10.  The OF parse run on freshly zeroed private data.  Whenever it
    fails, the resources it releases are exactly those it had acquired, in
    the reverse order of their acquisition; when it succeeds it releases
    nothing.  A configured timing bridge that is not found makes it release
    the DMA channel and return [-EPROBE_DEFER]; a configured discovery
    channel that is not found makes it release the timing bridge (if one
    was acquired), then the DMA channel, and return [-EPROBE_DEFER]; with
    both optional properties absent it succeeds holding the DMA channel
    alone. *)
Theorem parse_of_unwinds (pdev : platform_device) (p : digilent_hdmi_private) :
  0 < EPROBE_DEFER ->
  vtc_bridge p = NULL ->
  let r := parse_of pdev p in
  let got_clock_and_dma :=
    IS_ERR (pd_clk pdev) = false /\ IS_ERR (pd_dma pdev) = false in
  (result r <> 0 -> Log.released (calls r) = rev (Log.acquired (calls r)))
  /\ (result r = 0 -> Log.released (calls r) = [])
  /\ (got_clock_and_dma -> vtc_found pdev = false ->
      result r = - EPROBE_DEFER
      /\ Log.released (calls r) = [Log.dma_channel (pd_dma pdev)])
  /\ (got_clock_and_dma -> vtc_found pdev = true ->
      edid_i2c_found pdev = false ->
      result r = - EPROBE_DEFER
      /\ Log.released (calls r)
         = bridge_of pdev ++ [Log.dma_channel (pd_dma pdev)])
  /\ (got_clock_and_dma -> pd_vtc pdev = None -> pd_edid_i2c pdev = None ->
      result r = 0 /\ Log.acquired (calls r) = [Log.dma_channel (pd_dma pdev)])
  /\ (got_clock_and_dma -> vtc_found pdev = true ->
      edid_i2c_found pdev = true ->
      result r = 0
      /\ Log.acquired (calls r)
         = Log.dma_channel (pd_dma pdev) :: bridge_of pdev ++ adapter_of pdev).
Proof.
  intros HE Hb. destruct pdev as [c d vtc br ed ad u32]. cbv zeta.
  unfold vtc_found, edid_i2c_found, bridge_of, adapter_of.
  unfold digilent_hdmi_parse_of, parse_vtc, parse_edid_i2c, read_u32_or.
  unfold bind, do_call, modify, ret, get, result, calls.
  cbn [pd_clk pd_dma pd_vtc pd_bridge pd_edid_i2c pd_adapter pd_u32].
  by_cases c d vtc ed br ad Hb.
  all: repeat split; intros; try reflexivity; try lia; try discriminate;
       try tauto; try congruence.
  all: try (match goal with H : _ /\ _ |- _ => destruct H; discriminate end).
Qed.

(** What a successful parse acquired is what the release helper, run on the
    private data the parse leaves, gives back, in the reverse order. *)
Lemma of_release_reverses_parse_of
  (pdev : platform_device) (p : digilent_hdmi_private) :
  vtc_bridge p = NULL -> i2c_bus p = NULL ->
  IS_ERR (pd_clk pdev) = false -> IS_ERR (pd_dma pdev) = false ->
  vtc_found pdev = true -> edid_i2c_found pdev = true ->
  Log.released (calls (digilent_hdmi_of_release (final (parse_of pdev p))))
  = rev (Log.acquired (calls (parse_of pdev p))).
Proof.
  intros Hb Hi. destruct pdev as [c d vtc br ed ad u32].
  unfold vtc_found, edid_i2c_found.
  unfold digilent_hdmi_of_release.
  unfold digilent_hdmi_parse_of, parse_vtc, parse_edid_i2c, read_u32_or.
  unfold bind, do_call, modify, ret, get, result, calls, final.
  cbn [pd_clk pd_dma pd_vtc pd_bridge pd_edid_i2c pd_adapter pd_u32].
  by_cases c d vtc ed br ad Hb.
  all: try rewrite Hi; cbn; intros; try discriminate; reflexivity.
Qed.

End ParseOf.

(** An EDID bus named in the device tree whose adapter is not registered
    yet: the probe is deferred after the bridge and then the DMA channel
    have been given back, in the reverse order of their acquisition. *)
Lemma parse_of_adapter_missing :
  let r := digilent_hdmi_parse_of Examples.EPROBE_DEFER
             Examples.pdev_adapter_missing zero_private in
  result r = -517
  /\ Log.acquired (calls r)
     = [Log.dma_channel (PTR 1); Log.timing_bridge (PTR 2)]
  /\ Log.released (calls r)
     = [Log.timing_bridge (PTR 2); Log.dma_channel (PTR 1)].
Proof.
  intros r.
  assert (HE : 0 < Examples.EPROBE_DEFER) by reflexivity.
  destruct (parse_of_unwinds Examples.EPROBE_DEFER
              Examples.pdev_adapter_missing zero_private HE eq_refl)
    as (Hrev & _ & _ & Hi2c & _).
  destruct (Hi2c (conj eq_refl eq_refl) eq_refl eq_refl) as (Hret & Hrel).
  split; [exact Hret |]. split; [reflexivity | exact Hrel].
Defined.

(** Every dependency present: the parse succeeds holding the DMA channel,
    the bridge and the adapter, and falls back to the built-in limits. *)
Example parse_of_full_board :
  let r := digilent_hdmi_parse_of Examples.EPROBE_DEFER
             Examples.pdev_full zero_private in
  result r = 0
  /\ Log.acquired (calls r)
     = [Log.dma_channel (PTR 1); Log.timing_bridge (PTR 2);
        Log.capability_channel (PTR 3)]
  /\ Log.released (calls r) = []
  /\ (fmax (final r), hmax (final r), vmax (final r),
      hpref (final r), vpref (final r)) = (150000, 1920, 1080, 1280, 720).
Proof. cbv zeta. repeat split. Qed.

(** Neither optional property: the parse still succeeds. *)
Example parse_of_bare_board :
  let r := digilent_hdmi_parse_of Examples.EPROBE_DEFER
             Examples.pdev_bare zero_private in
  result r = 0
  /\ (vtc_bridge (final r), i2c_bus (final r)) = (NULL, NULL)
  /\ Log.acquired (calls r) = [Log.dma_channel (PTR 1)]
  /\ Log.released (calls r) = [].
Proof. cbv zeta. repeat split. Qed.

Lemma of_release_run p :
  digilent_hdmi_of_release p = (tt, p, of_release_calls p).
Proof.
  unfold digilent_hdmi_of_release, of_release_calls, bind, get.
  destruct (negb (is_null (i2c_bus p))), (negb (is_null (vtc_bridge p)));
    reflexivity.
Qed.

Lemma of_release_calls_release p :
  forallb Log.is_release (of_release_calls p) = true.
Proof.
  unfold of_release_calls.
  destruct (negb (is_null (i2c_bus p))), (negb (is_null (vtc_bridge p)));
    reflexivity.
Qed.

(** The release helper gives back the discovery channel, then the timing
    bridge, then the DMA channel: the reverse of the order in which the OF
    parse acquires them. *)
Lemma of_release_order p :
  Log.released (of_release_calls p)
  = (if negb (is_null (i2c_bus p))
     then [Log.capability_channel (i2c_bus p)] else [])
    ++ (if negb (is_null (vtc_bridge p))
        then [Log.timing_bridge (vtc_bridge p)] else [])
    ++ [Log.dma_channel (dma p)].
Proof.
  unfold of_release_calls.
  destruct (negb (is_null (i2c_bus p))), (negb (is_null (vtc_bridge p)));
    reflexivity.
Qed.

(** C1 (what the code does).  On remove, the driver first makes every
    resource-release call of [digilent_hdmi_of_release] (discovery channel,
    timing bridge, DMA channel, in this order), and only then calls
    [drm_atomic_helper_shutdown], followed by [drm_put_dev] last.  The
    release of the DMA channel therefore always precedes the commit
    shutdown, whereas the specification has the shutdown first. *)
Theorem remove_releases_before_shutdown (p : digilent_hdmi_private) :
  let r := digilent_hdmi_platform_remove p in
  calls r
  = of_release_calls p
    ++ [drm_atomic_helper_shutdown (drm_dev p); drm_put_dev (drm_dev p)]
  /\ forallb Log.is_release (of_release_calls p) = true
  /\ In (dma_release_channel (dma p)) (of_release_calls p)
  /\ (exists i j,
        Log.index_of Log.is_release (calls r) = Some i
        /\ Log.index_of Log.is_shutdown (calls r) = Some j
        /\ (i < j)%nat)
  /\ result r = 0.
Proof.
  intros r.
  assert (Hr : r = (0, p,
                    of_release_calls p
                    ++ [drm_atomic_helper_shutdown (drm_dev p);
                        drm_put_dev (drm_dev p)])).
  { unfold r, digilent_hdmi_platform_remove, bind at 1. unfold get at 1.
    unfold bind at 1. rewrite of_release_run. reflexivity. }
  rewrite Hr. unfold calls, result; cbn [fst snd].
  split; [reflexivity |].
  split; [apply of_release_calls_release |].
  split.
  - unfold of_release_calls. rewrite !in_app_iff. right. right. left.
    reflexivity.
  - split; [| reflexivity].
    unfold of_release_calls.
    destruct (negb (is_null (i2c_bus p))), (negb (is_null (vtc_bridge p)));
      cbn; eauto 10 using Nat.lt_0_succ.
Qed.

(** On the example board: the three releases, then the shutdown, then the
    device itself. *)
Lemma remove_on_board :
  calls (digilent_hdmi_platform_remove Examples.board)
  = [i2c_put_adapter (PTR 3); of_xlnx_bridge_put (PTR 2);
     dma_release_channel (PTR 1);
     drm_atomic_helper_shutdown (PTR 5); drm_put_dev (PTR 5)].
Proof. reflexivity. Qed.

End DrvSpec.

(** ** Encoder: clock rate and enable balance *)

Module EncoderModeSpec.
Import EncoderMode.

Lemma to_word_int_nonneg w x :
  0 <= x < 2 ^ 31 -> C.to_word w (C.to_int x) = x.
Proof.
  intros H. rewrite CFacts.to_int_small by lia.
  apply CFacts.to_word_small. pose proof (CFacts.pow_bits_ge w). lia.
Qed.

Lemma to_int_high x :
  2 ^ 31 <= x < 2 ^ 32 -> C.to_int x = x - 2 ^ 32.
Proof.
  intros H. unfold C.to_int, C.to_signed.
  change (2 ^ (32 - 1)) with (2 ^ 31).
  replace (x + 2 ^ 31) with (x - 2 ^ 31 + 1 * 2 ^ 32) by lia.
  rewrite Z.mod_add by lia. rewrite Z.mod_small by lia. lia.
Qed.

(** The rate handed to [clk_set_rate] is the pixel clock in Hz as long as
    that fits an [int] (pixel clocks up to 2147483 kHz); the hook changes
    nothing in the private data.  Past that the [int] product wraps: where
    [unsigned long] has 32 bits the rate is still the clock in Hz up to
    2^32 - 1, where it has 64 bits the negative product is sign-extended and
    the rate is off by [2 ^ 64 - 2 ^ 32]. *)
Theorem mode_set_rate
  (long : C.width) (p : digilent_hdmi_private) (m : drm_display_mode) :
  let hz := clock m * 1000 in
  let rate := C.to_word long (C.to_int hz) in
  digilent_hdmi_encoder_mode_set long m p
  = (tt, p, [clk_set_rate (hdmi_clock p) rate])
  /\ (0 <= hz < 2 ^ 31 -> rate = hz)
  /\ (2 ^ 31 <= hz < 2 ^ 32 ->
      rate = match long with
             | C.w32 => hz
             | C.w64 => hz + (2 ^ 64 - 2 ^ 32)
             end).
Proof.
  intros hz rate. split; [reflexivity |]. split.
  - intros H. apply to_word_int_nonneg. exact H.
  - intros H. unfold rate. rewrite to_int_high by exact H.
    unfold C.to_word, C.to_unsigned. destruct long; cbn [C.bits].
    + replace (hz - 2 ^ 32) with (hz + (-1) * 2 ^ 32) by lia.
      rewrite Z.mod_add by lia. apply Z.mod_small. lia.
    + replace (hz - 2 ^ 32) with (hz + (2 ^ 64 - 2 ^ 32) + (-1) * 2 ^ 64)
        by lia.
      rewrite Z.mod_add by lia. apply Z.mod_small. lia.
Qed.

(** 148.5 MHz is requested as 148500000 Hz. *)
Lemma mode_set_rate_1080p60 :
  calls (digilent_hdmi_encoder_mode_set C.w32 Examples.mode_1080p60
           Examples.board)
  = [clk_set_rate (PTR 4) 148500000].
Proof.
  destruct (mode_set_rate C.w32 Examples.board Examples.mode_1080p60)
    as (Hrun & Hsmall & _).
  rewrite Hrun. unfold calls; cbn [snd].
  rewrite Hsmall by (cbn; lia). reflexivity.
Defined.

Section Ops.

Variable long : C.width.

Local Abbreviation run := (run_encoder_ops long).

Lemma run_op_cases o p :
  exists b tr,
    run_encoder_op long o p = (tt, set_clk_enabled b p, tr)
    /\ (Nat.b2n (clk_enabled p) + Log.count Log.is_clk_start tr
        = Log.count Log.is_clk_stop tr + Nat.b2n b)%nat
    /\ Forall (fun c => clock_of c = [] \/ clock_of c = [hdmi_clock p]) tr.
Proof.
  assert (Hone : forall c, clock_of c = [hdmi_clock p] ->
            Forall (fun c => clock_of c = [] \/ clock_of c = [hdmi_clock p])
              [c]).
  { intros c Hc. apply Forall_cons; [right; exact Hc | apply Forall_nil]. }
  destruct o as [| | m]; cbn [run_encoder_op].
  - destruct (clk_enabled p) eqn:E.
    + exists true, []. rewrite EncoderSpec.enable_when_enabled by exact E.
      split; [destruct p; cbn in *; subst; reflexivity |].
      split; [reflexivity | apply Forall_nil].
    + exists true, [clk_prepare_enable (hdmi_clock p)].
      rewrite EncoderSpec.enable_when_disabled by exact E.
      split; [reflexivity |].
      split; [reflexivity | apply Hone; reflexivity].
  - destruct (clk_enabled p) eqn:E.
    + exists false, [clk_disable_unprepare (hdmi_clock p)].
      rewrite EncoderSpec.disable_when_enabled by exact E.
      split; [reflexivity |].
      split; [reflexivity | apply Hone; reflexivity].
    + exists false, []. rewrite EncoderSpec.disable_when_disabled by exact E.
      split; [destruct p; cbn in *; subst; reflexivity |].
      split; [reflexivity | apply Forall_nil].
  - exists (clk_enabled p), [clk_set_rate (hdmi_clock p)
                               (C.to_word long (C.to_int (clock m * 1000)))].
    split; [destruct p; reflexivity |].
    split; [cbn; lia | apply Hone; reflexivity].
Qed.

Lemma count_app f (a b : list call) :
  Log.count f (a ++ b) = (Log.count f a + Log.count f b)%nat.
Proof. unfold Log.count. rewrite filter_app, length_app. reflexivity. Qed.

(** Whatever sequence of enable, disable and mode-set hooks runs, from any
    state: the clock is started once more than it is stopped exactly when
    the run takes the flag from disabled to enabled (so the clock is never
    started twice without a stop in between, nor stopped when not started),
    every clock call names the device's own clock, and nothing but the flag
    changes in the private data. *)
Theorem encoder_clock_balanced
  (ops : list encoder_op) (p : digilent_hdmi_private) :
  let r := run ops p in
  (Nat.b2n (clk_enabled p) + Log.count Log.is_clk_start (calls r)
   = Log.count Log.is_clk_stop (calls r) + Nat.b2n (clk_enabled (final r)))%nat
  /\ Forall (fun c => clock_of c = [] \/ clock_of c = [hdmi_clock p])
       (calls r)
  /\ final r = set_clk_enabled (clk_enabled (final r)) p.
Proof.
  revert p. induction ops as [| o rest IH]; intros p r.
  - unfold r. cbn. split; [lia |]. split; [constructor |].
    destruct p; reflexivity.
  - destruct (run_op_cases o p) as (b & tr & Hop & Hbal & Hclk).
    specialize (IH (set_clk_enabled b p)). cbv zeta in IH.
    destruct (run rest (set_clk_enabled b p)) as [[u q] tr'] eqn:Hrest.
    unfold calls, final in IH; cbn [fst snd] in IH.
    destruct IH as (IHbal & IHclk & IHfin).
    assert (Hr : r = (u, q, tr ++ tr')).
    { unfold r. cbn [run_encoder_ops]. unfold bind.
      rewrite Hop. fold (run rest). rewrite Hrest. reflexivity. }
    rewrite Hr. unfold calls, final; cbn [fst snd].
    rewrite !count_app. cbn [clk_enabled set_clk_enabled] in IHbal.
    split; [lia |]. split.
    + apply Forall_app. split; [exact Hclk | exact IHclk].
    + rewrite IHfin at 1. destruct p; reflexivity.
Qed.

End Ops.

End EncoderModeSpec.

(** ** CRTC: modes for which the settle delay is not defined *)

Module CrtcEdgeSpec.
Import Crtc.

(** When the total size of the adjusted mode is zero as an [int] (as for a
    mode that was never filled in), or when the pixel clock in Hz is below
    the total size (a refresh rate under 1 Hz, computed as 0), the enable
    hook evaluates a division by zero, which C leaves undefined: the first
    division in the one case, the second ([1000 / vrefresh]) in the other.
    All it has done by then is to program and enable the timing bridge, if
    there is one; no delay has been requested and the private data are
    unchanged.  What follows the division is the target's affair and is not
    stated. *)
Theorem enable_division_undefined (p : digilent_hdmi_private) :
  let m := adjusted_mode (crtc p) in
  let total := C.to_int (vtotal m * htotal m) in
  let hz := C.to_int (clock m * 1000) in
  total = 0
  \/ (0 <= clock m * 1000 < vtotal m * htotal m
      /\ vtotal m * htotal m < 2 ^ 31) ->
  (total = 0 -> C.int_div hz total = None)
  /\ (total <> 0 ->
      C.int_div hz total = Some 0 /\ C.int_div (1 * 1000) 0 = None)
  /\ digilent_hdmi_crtc_enable p = (undefined_division, p, bridge_setup p)
  /\ Log.sleeps (bridge_setup p) = [].
Proof.
  intros m total hz H.
  assert (Hs : Log.sleeps (bridge_setup p) = []).
  { unfold bridge_setup.
    destruct (negb (is_null (vtc_bridge p))); reflexivity. }
  assert (Hrun : forall d, C.int_div hz total = d ->
            match d with
            | None => True
            | Some v => C.int_div (1 * 1000) v = None
            end ->
            digilent_hdmi_crtc_enable p
            = (undefined_division, p, bridge_setup p)).
  { intros d Hd Hnext.
    unfold digilent_hdmi_crtc_enable, bind, get, bridge_setup.
    fold m. fold total. fold hz. rewrite Hd.
    destruct d as [v |]; [rewrite Hnext |];
      destruct (negb (is_null (vtc_bridge p))); reflexivity. }
  destruct H as [Hz | (Hlow & Hfit)].
  - split; [intros _; rewrite Hz; apply CFacts.int_div_by_zero |].
    split; [intros Hnz; contradiction |].
    split; [| exact Hs].
    apply (Hrun None); [rewrite Hz; apply CFacts.int_div_by_zero | exact I].
  - assert (Hdiv : C.int_div hz total = Some 0).
    { unfold hz, total. rewrite !CFacts.to_int_small by lia.
      rewrite CFacts.int_div_nonneg by lia.
      rewrite Z.div_small by lia. reflexivity. }
    split.
    { intros Hz. unfold total in Hz.
      rewrite CFacts.to_int_small in Hz by lia. lia. }
    split; [intros _; split; [exact Hdiv | reflexivity] |].
    split; [| exact Hs].
    apply (Hrun (Some 0)); [exact Hdiv | reflexivity].
Qed.

(** Enabling the CRTC of the example board before any mode was set: the
    bridge is programmed with the empty mode and enabled, and the refresh
    rate is then computed as 0 / 0. *)
Lemma enable_unset_mode :
  digilent_hdmi_crtc_enable (with_mode Drv.zero_mode Examples.board)
  = (undefined_division, with_mode Drv.zero_mode Examples.board,
     [xlnx_bridge_set_timing (PTR 2) Drv.zero_mode;
      xlnx_bridge_enable (PTR 2)]).
Proof.
  destruct (enable_division_undefined
              (with_mode Drv.zero_mode Examples.board))
    as (_ & _ & Hrun & _).
  - left. reflexivity.
  - exact Hrun.
Defined.

End CrtcEdgeSpec.

(** ** Sequences of plane updates *)

Module FramesSpec.
Import Frames.

Section Platform.

Variable size_t : C.width.
Variable dma_addr_t : C.width.
Variable vdma_prep :
  ptr dma_chan -> dma_interleaved_template -> list dma_ctrl_flags ->
  option dma_async_tx_descriptor.

Local Abbreviation updates := (run_updates size_t dma_addr_t vdma_prep).
Local Abbreviation update :=
  (Crtc.digilent_hdmi_plane_atomic_update size_t dma_addr_t vdma_prep).

(** What one update of the plane state [st] leaves: the same private data
    but for the plane state and the template, whose [dst_start] it keeps,
    and one whole update in the log (none when the plane is inactive). *)
Lemma one_update st p :
  exists q tr,
    update (Examples.set_plane st p) = (tt, q, tr)
    /\ dma q = dma p
    /\ vtc_bridge q = vtc_bridge p
    /\ dst_start (dma_template q) = dst_start (dma_template p)
    /\ (forall rest, whole_updates (tr ++ rest) = whole_updates rest)
    /\ Forall (fun c => channel_of c = [] \/ channel_of c = [dma p]) tr
    /\ Log.count is_terminate tr = (if active st then 1 else 0)%nat
    /\ (Log.count is_issue tr <= Log.count is_terminate tr)%nat.
Proof.
  destruct (ps_crtc st) as [c |] eqn:Hc; [destruct (fb st) as [f |] eqn:Hf |].
  - pose proof (PlaneSpec.update_run size_t dma_addr_t vdma_prep
                  (Examples.set_plane st p) c f Hc Hf) as Hrun.
    cbv zeta in Hrun. rewrite Hrun. clear Hrun.
    eexists. eexists. split; [reflexivity |].
    cbn [dma Examples.set_plane set_dma_template vtc_bridge dma_template plane].
    unfold active. rewrite Hc, Hf.
    destruct (vdma_prep _ _ _) as [d |]; cbn [desc_ptr].
    + do 3 (split; [reflexivity |]).
      split; [intros rest; cbn; rewrite Z.eqb_refl; reflexivity |].
      split; [| split; [reflexivity | cbn; lia]].
      repeat (apply Forall_cons; [cbn; auto |]). apply Forall_nil.
    + do 3 (split; [reflexivity |]).
      split; [intros rest; reflexivity |].
      split; [| split; [reflexivity | cbn; lia]].
      repeat (apply Forall_cons; [cbn; auto |]). apply Forall_nil.
  - rewrite (PlaneSpec.update_noop size_t dma_addr_t vdma_prep
               (Examples.set_plane st p)) by (right; exact Hf).
    exists (Examples.set_plane st p), [].
    unfold active. rewrite Hc, Hf.
    do 4 (split; [reflexivity |]).
    split; [intros rest; reflexivity |].
    split; [apply Forall_nil |]. split; [reflexivity | cbn; lia].
  - rewrite (PlaneSpec.update_noop size_t dma_addr_t vdma_prep
               (Examples.set_plane st p)) by (left; exact Hc).
    exists (Examples.set_plane st p), [].
    unfold active. rewrite Hc.
    do 4 (split; [reflexivity |]).
    split; [intros rest; reflexivity |].
    split; [apply Forall_nil |]. split; [reflexivity | cbn; lia].
Qed.

Lemma updates_step st rest p q tr :
  update (Examples.set_plane st p) = (tt, q, tr) ->
  updates (st :: rest) p
  = (let '(u, q', tr') := updates rest q in (u, q', tr ++ tr')).
Proof.
  intros H. cbn [run_updates]. unfold bind at 1. unfold modify at 1.
  unfold bind at 1. rewrite H. destruct (updates rest q) as [[u q'] tr'].
  reflexivity.
Qed.

Lemma updates_keep_pointers sts :
  forall p,
    dma (final (updates sts p)) = dma p
    /\ vtc_bridge (final (updates sts p)) = vtc_bridge p.
Proof.
  induction sts as [| st rest IH]; intros p; [split; reflexivity |].
  destruct (one_update st p) as (q & tr & Hup & Hdma & Hvtc & _).
  rewrite (updates_step st rest p q tr Hup).
  specialize (IH q). destruct (updates rest q) as [[u q'] tr'].
  unfold final in *; cbn [fst snd] in *. destruct IH. split; congruence.
Qed.


Lemma in_flight_app a b :
  in_flight (a ++ b)
  = fold_left (fun x c =>
                 match c with
                 | dma_async_issue_pending _ => true
                 | dmaengine_terminate_all _ => false
                 | _ => x
                 end) b (in_flight a).
Proof. unfold in_flight. apply fold_left_app. Qed.

(** After the CRTC is disabled no transfer is left issued, whatever plane
    updates ran before: the disable hook ends with a terminate on the
    device's channel, after disabling the bridge. *)
Theorem disable_stops_every_transfer
  (sts : list drm_plane_state) (p : digilent_hdmi_private) :
  let r := (updates sts ;; Crtc.digilent_hdmi_crtc_disable) p in
  in_flight (calls r) = false
  /\ calls r
     = calls (updates sts p)
       ++ [xlnx_bridge_disable (vtc_bridge p);
           dmaengine_terminate_all (dma p)].
Proof.
  intros r.
  destruct (updates_keep_pointers sts p) as (Hdma & Hvtc).
  assert (Hr : calls r
               = calls (updates sts p)
                 ++ [xlnx_bridge_disable (vtc_bridge p);
                     dmaengine_terminate_all (dma p)]).
  { unfold r, bind. destruct (updates sts p) as [[u q] tr].
    unfold final in *; cbn [fst snd] in *.
    rewrite CrtcSpec.crtc_disable_stops_dma. unfold calls; cbn [snd].
    rewrite Hdma, Hvtc. reflexivity. }
  split; [| exact Hr].
  rewrite Hr, in_flight_app. reflexivity.
Qed.

End Platform.

(** One accepted update leaves its transfer issued; disabling the CRTC
    afterwards stops it. *)
Lemma update_then_disable_on_board :
  let p := Examples.board in
  in_flight (calls (run_updates C.w32 C.w32 Examples.accept_all
                      [Examples.plane_window] p)) = true
  /\ in_flight (calls ((run_updates C.w32 C.w32 Examples.accept_all
                          [Examples.plane_window] ;;
                        Crtc.digilent_hdmi_crtc_disable) p)) = false.
Proof.
  intros p. split; [reflexivity |].
  exact (proj1 (disable_stops_every_transfer C.w32 C.w32 Examples.accept_all
                  [Examples.plane_window] p)).
Defined.

End FramesSpec.

(** ** Connector: reading the sink, detection, limits *)

Module ConnectorEdgeSpec.
Import Connector Detect.

Section GetModes.

Variable table : list drm_display_mode.
Variable read_edid : ptr i2c_adapter -> option edid.
Variable edid_modes : edid -> list drm_display_mode.

Local Abbreviation get_modes :=
  (digilent_hdmi_connector_get_modes table read_edid edid_modes).

Lemma get_modes_with_channel p :
  is_null (i2c_bus p) = false ->
  get_modes p
  = match read_edid (i2c_bus p) with
    | None =>
        (0, p, [drm_get_edid (i2c_bus p) NULL;
                DRM_ERROR "failed to get EDIT data from I2C bus"])
    | Some e =>
        (Z.of_nat (List.length (edid_modes e)),
         set_connector (connector p ++ edid_modes e) p,
         [drm_get_edid (i2c_bus p) (PTR e);
          drm_connector_update_edid_property e;
          drm_add_edid_modes e; kfree_edid e])
    end.
Proof.
  intros H. unfold digilent_hdmi_connector_get_modes, bind at 1.
  unfold get at 1. rewrite H. cbn [negb].
  destruct (read_edid (i2c_bus p)); [reflexivity |].
  destruct p; reflexivity.
Qed.

(** With a discovery channel configured, [get_modes] never falls back to
    synthesised modes.  If the EDID cannot be read it reports the error,
    returns 0 and leaves the private data (the probed modes included) as
    they were, freeing nothing.  If it is read, the modes it describes are
    appended to the probed modes as they are, their number is returned, and
    the EDID block is freed exactly once, as the last call. *)
Theorem get_modes_reads_edid (p : digilent_hdmi_private) :
  is_null (i2c_bus p) = false ->
  let r := get_modes p in
  Log.count is_fallback_call (calls r) = 0%nat
  /\ Log.count is_edid_read (calls r) = 1%nat
  /\ (read_edid (i2c_bus p) = None ->
      result r = 0 /\ final r = p
      /\ Log.count is_edid_free (calls r) = 0%nat
      /\ last (calls r) (DRM_ERROR "")
         = DRM_ERROR "failed to get EDIT data from I2C bus")
  /\ (forall e, read_edid (i2c_bus p) = Some e ->
      result r = Z.of_nat (List.length (edid_modes e))
      /\ connector (final r) = connector p ++ edid_modes e
      /\ Log.count is_edid_free (calls r) = 1%nat
      /\ last (calls r) (DRM_ERROR "") = kfree_edid e).
Proof.
  intros H r. unfold r. rewrite (get_modes_with_channel p H).
  destruct (read_edid (i2c_bus p)) as [e |].
  - split; [reflexivity |]. split; [reflexivity |]. split.
    + intros E. discriminate E.
    + intros e' E. injection E as <-. repeat split.
  - split; [reflexivity |]. split; [reflexivity |]. split.
    + intros _. repeat split.
    + intros e' E. discriminate E.
Qed.

(** [detect] reports unknown exactly when no discovery channel is
    configured, which is exactly when [get_modes] synthesises fallback modes
    instead of reading the sink; with a channel it reports connected if the
    sink answers the probe and disconnected if not.  [force] makes no
    difference. *)
Theorem detect_agrees_with_get_modes
  (drm_probe_ddc : ptr i2c_adapter -> bool)
  (p : digilent_hdmi_private) (force : bool) :
  let status := digilent_hdmi_connector_detect drm_probe_ddc p force in
  let r := get_modes p in
  (status = connector_status_unknown <-> is_null (i2c_bus p) = true)
  /\ (status = connector_status_unknown
      <-> Log.count is_edid_read (calls r) = 0%nat)
  /\ (status = connector_status_unknown
      <-> Log.count is_fallback_call (calls r) = 2%nat)
  /\ (status = connector_status_connected
      <-> is_null (i2c_bus p) = false /\ drm_probe_ddc (i2c_bus p) = true)
  /\ digilent_hdmi_connector_detect drm_probe_ddc p (negb force) = status.
Proof.
  intros status r. unfold status, r, digilent_hdmi_connector_detect.
  destruct (is_null (i2c_bus p)) eqn:Hn; cbn [negb].
  - assert (Hbus : i2c_bus p = NULL)
      by (destruct (i2c_bus p); [reflexivity | discriminate | discriminate]).
    rewrite (ConnectorSpec.get_modes_without_channel
               table read_edid edid_modes p Hbus).
    unfold calls; cbn [snd].
    repeat split; intros; try reflexivity; try discriminate.
    destruct H; discriminate.
  - rewrite (get_modes_with_channel p Hn).
    destruct (drm_probe_ddc (i2c_bus p)), (read_edid (i2c_bus p));
      unfold calls; cbn [snd];
      repeat split; intros; try reflexivity; try discriminate;
      try (destruct H; discriminate).
Qed.

End GetModes.

(** On the example board the sink describes two modes. *)
Lemma get_modes_reads_edid_on_board :
  let read (a : ptr i2c_adapter) : option edid := Some 9 in
  let modes (e : edid) := [Examples.mode_1080p60; Examples.mode_at_ceilings] in
  let r := digilent_hdmi_connector_get_modes Examples.standard_timings
             read modes Examples.board in
  result r = 2
  /\ connector (final r) = [Examples.mode_1080p60; Examples.mode_at_ceilings]
  /\ last (calls r) (DRM_ERROR "") = kfree_edid 9.
Proof.
  intros read modes r.
  destruct (get_modes_reads_edid Examples.standard_timings read modes
              Examples.board eq_refl) as (_ & _ & _ & Hsome).
  destruct (Hsome 9 eq_refl) as (Hres & Hconn & _ & Hlast).
  split; [exact Hres |]. split; [exact Hconn | exact Hlast].
Defined.

Section ModeValid.

Variable INTERLACE DBLCLK MASK_3D : Z.

Local Abbreviation mode_valid :=
  (digilent_hdmi_connector_mode_valid INTERLACE DBLCLK MASK_3D).

Lemma to_uint_negative x :
  - 2 ^ 31 <= x < 0 -> 2 ^ 31 <= C.to_uint x.
Proof.
  intros H. unfold C.to_uint, C.to_unsigned.
  replace x with (x + 2 ^ 32 + (-1) * 2 ^ 32) by lia.
  rewrite Z.mod_add by lia. rewrite Z.mod_small by lia. lia.
Qed.

(** A NULL mode is rejected, and so is every mode with a negative clock or
    active size when the limits are below 2^31: the comparison is made on
    [unsigned int], where a negative [int] is a value of 2^31 or more. *)
Theorem negative_mode_rejected
  (private : digilent_hdmi_private) (m : drm_display_mode) :
  mode_valid private None = MODE_BAD
  /\ (fmax private < 2 ^ 31 -> hmax private < 2 ^ 31 ->
      vmax private < 2 ^ 31 ->
      (- 2 ^ 31 <= clock m < 0 \/ - 2 ^ 31 <= hdisplay m < 0
       \/ - 2 ^ 31 <= vdisplay m < 0) ->
      mode_valid private (Some m) = MODE_BAD).
Proof.
  split; [reflexivity |].
  intros Hf Hh Hv Hneg.
  destruct (mode_valid private (Some m)) eqn:E; [| reflexivity].
  apply ConnectorSpec.mode_valid_ok in E.
  destruct E as (_ & Ec & Eh & Ev).
  destruct Hneg as [N | [N | N]]; apply to_uint_negative in N; lia.
Qed.

(** Acceptance is monotone in the limits and depends on nothing else in the
    private data: a mode accepted under some limits is accepted under any
    limits at least as large. *)
Theorem mode_valid_monotone
  (private private' : digilent_hdmi_private) (m : drm_display_mode) :
  fmax private <= fmax private' ->
  hmax private <= hmax private' ->
  vmax private <= vmax private' ->
  mode_valid private (Some m) = MODE_OK ->
  mode_valid private' (Some m) = MODE_OK.
Proof.
  intros Hf Hh Hv E.
  apply ConnectorSpec.mode_valid_ok in E.
  apply ConnectorSpec.mode_valid_ok.
  destruct E as (Hflags & Ec & Eh & Ev).
  split; [exact Hflags | lia].
Qed.

End ModeValid.

(** A mode with a negative clock against the built-in limits. *)
Lemma negative_clock_rejected_on_board :
  digilent_hdmi_connector_mode_valid
    Examples.FLAG_INTERLACE Examples.FLAG_DBLCLK Examples.FLAG_3D_MASK
    Examples.board (Some (Examples.timing (-1) 640 800 480 525)) = MODE_BAD.
Proof.
  apply (proj2 (negative_mode_rejected
                  Examples.FLAG_INTERLACE Examples.FLAG_DBLCLK
                  Examples.FLAG_3D_MASK Examples.board
                  (Examples.timing (-1) 640 800 480 525)));
    try reflexivity.
  left. split; [discriminate | reflexivity].
Defined.

(** 1080p60 passes the built-in limits, hence also limits raised to
    300 MHz and 4096x2160. *)
Lemma mode_valid_monotone_on_board :
  digilent_hdmi_connector_mode_valid
    Examples.FLAG_INTERLACE Examples.FLAG_DBLCLK Examples.FLAG_3D_MASK
    (set_limits 300000 4096 2160 1280 720 Examples.board)
    (Some Examples.mode_1080p60) = MODE_OK.
Proof.
  apply (mode_valid_monotone
           Examples.FLAG_INTERLACE Examples.FLAG_DBLCLK Examples.FLAG_3D_MASK
           Examples.board); try discriminate.
  reflexivity.
Defined.

End ConnectorEdgeSpec.

(** ** OF parse: limits, node references, release *)

Module OfSpec.
Import Drv OfLog.

Section ParseOf.

Variable EPROBE_DEFER : Z.

Local Abbreviation parse_of := (digilent_hdmi_parse_of EPROBE_DEFER).

Local Ltac unfold_parse :=
  unfold Setup.of_ok, vtc_found, edid_i2c_found, bridge_of, adapter_of,
    limit_or, limits;
  unfold digilent_hdmi_parse_of, parse_vtc, parse_edid_i2c, read_u32_or;
  unfold bind, do_call, modify, ret, get, result, calls, final;
  cbn [pd_clk pd_dma pd_vtc pd_bridge pd_edid_i2c pd_adapter pd_u32].

Local Ltac split_cases c d vtc ed br ad :=
  destruct c, d, vtc as [?n |], ed as [?k |]; cbn;
  try (match goal with n : device_node |- context [br ?m] =>
         destruct (br m) eqn:?Hbr; cbn end);
  try (match goal with k : device_node |- context [ad ?m] =>
         destruct (ad m) eqn:?Had; cbn end).

(** A successful parse stores the clock and the channel it was given and
    sets each of the five limits to the value of its device-tree property,
    or to the built-in default (150000 kHz, 1920x1080, 1280x720) when the
    property is absent, reading them in the order fmax, hmax, vmax, hpref,
    vpref.  A failing parse reads no limit and leaves the five limits as
    they were.  Either way the CRTC, plane and connector state, the
    template, the DRM device and the clock flag are untouched. *)
Theorem parse_of_limits (pdev : platform_device) (p : digilent_hdmi_private) :
  let r := parse_of pdev p in
  (Setup.of_ok pdev = true ->
   limits (final r)
   = (limit_or pdev "fmax" DIGILENT_ENC_MAX_FREQ,
      limit_or pdev "hmax" DIGILENT_ENC_MAX_H,
      limit_or pdev "vmax" DIGILENT_ENC_MAX_V,
      limit_or pdev "hpref" DIGILENT_ENC_PREF_H,
      limit_or pdev "vpref" DIGILENT_ENC_PREF_V)
   /\ u32_reads (calls r)
      = ["fmax"; "hmax"; "vmax"; "hpref"; "vpref"]%string
   /\ hdmi_clock (final r) = pd_clk pdev
   /\ dma (final r) = pd_dma pdev)
  /\ (Setup.of_ok pdev = false ->
      limits (final r) = limits p /\ u32_reads (calls r) = [])
  /\ (crtc (final r), plane (final r), connector (final r),
      dma_template (final r), drm_dev (final r), clk_enabled (final r))
     = (crtc p, plane p, connector p, dma_template p, drm_dev p,
        clk_enabled p).
Proof.
  destruct pdev as [c d vtc br ed ad u32]. cbv zeta. unfold_parse.
  split_cases c d vtc ed br ad.
  all: try (destruct (negb (is_null (vtc_bridge p))); cbn).
  all: repeat split; intros; try reflexivity; try discriminate.
Qed.

(** Every device-tree node reference the parse takes is put back before it
    returns, on every path, in the order taken. *)
Theorem parse_of_puts_nodes (pdev : platform_device)
  (p : digilent_hdmi_private) :
  nodes_put (calls (parse_of pdev p)) = nodes_got (calls (parse_of pdev p)).
Proof.
  destruct pdev as [c d vtc br ed ad u32]. unfold_parse.
  split_cases c d vtc ed br ad.
  all: try (destruct (negb (is_null (vtc_bridge p)))); reflexivity.
Qed.

(** What the probe relies on: the parse succeeds exactly on [of_ok]
    platforms; a failure has released what it acquired, a success has
    released nothing and leaves private data from which the release helper
    gives back exactly what was acquired, in reverse. *)
Lemma parse_of_outcome (pdev : platform_device) (p : digilent_hdmi_private) :
  0 < EPROBE_DEFER ->
  vtc_bridge p = NULL -> i2c_bus p = NULL ->
  (IS_ERR (pd_clk pdev) = true -> PTR_ERR (pd_clk pdev) <> 0) ->
  (IS_ERR (pd_dma pdev) = true -> PTR_ERR (pd_dma pdev) <> 0) ->
  let r := parse_of pdev p in
  (Setup.of_ok pdev = true ->
   result r = 0
   /\ Log.released (calls r) = []
   /\ Log.acquired (calls r)
      = Log.dma_channel (pd_dma pdev) :: bridge_of pdev ++ adapter_of pdev
   /\ Log.released (of_release_calls (final r))
      = rev (Log.acquired (calls r))
   /\ hmax (final r) = limit_or pdev "hmax" DIGILENT_ENC_MAX_H
   /\ vmax (final r) = limit_or pdev "vmax" DIGILENT_ENC_MAX_V)
  /\ (Setup.of_ok pdev = false ->
      result r <> 0
      /\ Log.released (calls r) = rev (Log.acquired (calls r))).
Proof.
  intros HE Hb Hi. destruct pdev as [c d vtc br ed ad u32]. cbv zeta.
  unfold of_release_calls. unfold_parse.
  split_cases c d vtc ed br ad.
  all: try rewrite Hb; try rewrite Hi; cbn.
  all: intros Hc Hd; repeat split; intros; try reflexivity;
       try discriminate; try lia.
  all: try (apply Hc; reflexivity); try (apply Hd; reflexivity).
Qed.

End ParseOf.

(** The example board's device tree sets only [hmax] and [vmax]. *)
Lemma parse_of_limits_partial :
  let pdev :=
    {| pd_clk := PTR 4; pd_dma := PTR 1; pd_vtc := None;
       pd_bridge := fun _ => NULL; pd_edid_i2c := None;
       pd_adapter := fun _ => NULL;
       pd_u32 := fun name =>
                   if String.eqb name "hmax" then Some 1280
                   else if String.eqb name "vmax" then Some 1024
                   else None |} in
  limits (final (digilent_hdmi_parse_of Examples.EPROBE_DEFER pdev
                   zero_private))
  = (150000, 1280, 1024, 1280, 720).
Proof.
  intros pdev.
  destruct (parse_of_limits Examples.EPROBE_DEFER pdev zero_private)
    as (Hok & _).
  destruct (Hok eq_refl) as (Hlim & _). exact Hlim.
Defined.

(** After the parse of the full example platform, the release helper gives
    back the adapter, the bridge and the channel. *)
Lemma of_release_after_full_parse :
  Log.released
    (calls (digilent_hdmi_of_release
              (final (digilent_hdmi_parse_of Examples.EPROBE_DEFER
                        Examples.pdev_full zero_private))))
  = [Log.capability_channel (PTR 3); Log.timing_bridge (PTR 2);
     Log.dma_channel (PTR 1)].
Proof.
  exact (DrvSpec.of_release_reverses_parse_of Examples.EPROBE_DEFER
           Examples.pdev_full zero_private
           eq_refl eq_refl eq_refl eq_refl eq_refl eq_refl).
Defined.

End OfSpec.

(** ** Construction: create functions and probe *)

Module SetupSpec.
Import Setup.

Local Open Scope setup_scope.

Section Errno.

Variable ENOMEM : Z.
Variable EPROBE_DEFER : Z.

Local Abbreviation crtc_create := (digilent_hdmi_crtc_create ENOMEM).
Local Abbreviation probe :=
  (digilent_hdmi_platform_probe ENOMEM EPROBE_DEFER).

Local Ltac run_setup :=
  unfold sbind, emit, error, smodify, sret, sget, lift,
    sresult, sfinal, scalls; cbn.

(** The CRTC constructor either succeeds, having allocated a zeroed
    template and initialised the plane and then the CRTC, and tears nothing
    down; or fails with [-ENOMEM] (no template) or with the error of the
    failing initialisation, having torn down exactly what it had set up, in
    reverse order.  The destructor tears down the CRTC and then frees the
    template. *)
Theorem crtc_create_unwinds (k : drm_core) (p : digilent_hdmi_private) :
  0 < ENOMEM ->
  let r := crtc_create k p in
  let all_ok :=
    template_alloc k && (plane_init k =? 0) && (crtc_init k =? 0) in
  (sresult r = 0 <-> all_ok = true)
  /\ (sresult r = 0 ->
      built (scalls r) = [the_template; the_plane; the_crtc]
      /\ torn (scalls r) = []
      /\ dma_template (sfinal r) = zero_template)
  /\ (sresult r <> 0 -> torn (scalls r) = rev (built (scalls r)))
  /\ (template_alloc k = false -> sresult r = - ENOMEM /\ sfinal r = p)
  /\ (template_alloc k = true -> plane_init k <> 0 ->
      sresult r = plane_init k)
  /\ (template_alloc k = true -> plane_init k = 0 -> crtc_init k <> 0 ->
      sresult r = crtc_init k)
  /\ torn (scalls (digilent_hdmi_crtc_destroy p)) = [the_crtc; the_template].
Proof.
  intros HE. cbv zeta. unfold digilent_hdmi_crtc_create.
  destruct k as [pa da ta pi ci ei cni cr ae dr].
  cbn [template_alloc plane_init crtc_init].
  destruct ta; [destruct (Z.eqb_spec pi 0) as [-> | Hpi];
                [destruct (Z.eqb_spec ci 0) as [-> | Hci] |] |];
    run_setup.
  all: try (destruct (Z.eqb_spec ci 0) as [-> | Hci']; cbn).
  all: try (destruct (Z.eqb_spec pi 0); [lia |]; cbn).
  all: try (destruct (Z.eqb_spec ci 0); [lia |]; cbn).
  all: repeat split; intros; try reflexivity; try discriminate; try lia;
       try congruence.
Qed.

(** The connector constructor returns 0 exactly when the initialisation,
    the registration and the attachment of the encoder all succeed; it has
    then initialised and registered the connector and tears nothing down.
    When a step fails it returns the error of that step, having undone
    exactly what it had done, in reverse order: nothing when the
    initialisation fails, the initialisation when the registration fails,
    the registration and then the initialisation when the attachment fails.
    The destructor does the teardown of a constructed connector: unregister,
    then clean up.  The private data are not changed. *)
Theorem connector_create_unwinds
  (k : drm_core) (p : digilent_hdmi_private) :
  let r := digilent_hdmi_connector_create k p in
  let all_ok :=
    (connector_init k =? 0) && (connector_register k =? 0)
    && (attach_encoder k =? 0) in
  (sresult r = 0 <-> all_ok = true)
  /\ (sresult r = 0 ->
      built (scalls r) = [the_connector; the_registration]
      /\ torn (scalls r) = []
      /\ torn (scalls (digilent_hdmi_connector_destroy p))
         = rev (built (scalls r)))
  /\ (sresult r <> 0 -> torn (scalls r) = rev (built (scalls r)))
  /\ (connector_init k <> 0 ->
      sresult r = connector_init k
      /\ built (scalls r) = [] /\ torn (scalls r) = [])
  /\ (connector_init k = 0 -> connector_register k <> 0 ->
      sresult r = connector_register k
      /\ built (scalls r) = [the_connector]
      /\ torn (scalls r) = [the_connector])
  /\ (connector_init k = 0 -> connector_register k = 0 ->
      attach_encoder k <> 0 ->
      sresult r = attach_encoder k
      /\ built (scalls r) = [the_connector; the_registration]
      /\ torn (scalls r) = [the_registration; the_connector])
  /\ sfinal r = p.
Proof.
  cbv zeta. unfold digilent_hdmi_connector_create.
  destruct k as [pa da ta pi ci ei cni cr ae dr].
  cbn [connector_init connector_register attach_encoder].
  destruct (Z.eqb_spec cni 0) as [-> | Hi];
    [destruct (Z.eqb_spec cr 0) as [-> | Hr];
     [destruct (Z.eqb_spec ae 0) as [-> | Ha] |] |];
    run_setup.
  all: repeat match goal with
              | H : ?x <> 0 |- context [?x =? 0] =>
                  rewrite (proj2 (Z.eqb_neq x 0) H); cbn
              end.
  all: repeat split; intros; try reflexivity; try discriminate; try lia;
       try congruence.
Qed.

End Errno.

(** A CRTC initialisation refused with -22 after the plane was set up. *)
Lemma crtc_create_crtc_init_fails :
  let k := {| private_alloc := true; dev_alloc := PTR 5;
              template_alloc := true; plane_init := 0; crtc_init := -22;
              encoder_init := 0; connector_init := 0;
              connector_register := 0; attach_encoder := 0;
              dev_register := 0 |} in
  let r := digilent_hdmi_crtc_create 12 k Examples.board in
  sresult r = -22
  /\ built (scalls r) = [the_template; the_plane]
  /\ torn (scalls r) = [the_plane; the_template].
Proof.
  intros k r.
  assert (HE : 0 < 12) by reflexivity.
  destruct (crtc_create_unwinds 12 k Examples.board HE)
    as (_ & _ & Hfail & _ & _ & Hcode & _).
  split; [apply Hcode; [reflexivity | reflexivity | discriminate] |].
  split; [reflexivity |].
  apply Hfail. discriminate.
Defined.

(** An encoder attachment refused with -22. *)
Lemma connector_create_attach_fails :
  let k := {| private_alloc := true; dev_alloc := PTR 5;
              template_alloc := true; plane_init := 0; crtc_init := 0;
              encoder_init := 0; connector_init := 0;
              connector_register := 0; attach_encoder := -22;
              dev_register := 0 |} in
  let r := digilent_hdmi_connector_create k Examples.board in
  sresult r = -22 /\ torn (scalls r) = [the_registration; the_connector].
Proof.
  intros k r.
  destruct (connector_create_unwinds k Examples.board)
    as (_ & _ & _ & _ & _ & Hattach & _).
  destruct Hattach as (Hrc & _ & Htorn);
    [reflexivity | reflexivity | discriminate |].
  split; [exact Hrc | exact Htorn].
Defined.

End SetupSpec.

(** ** Probe *)

Module ProbeSpec.
Import Setup.

Section Errno.

Variable ENOMEM : Z.
Variable EPROBE_DEFER : Z.

Local Abbreviation probe :=
  (digilent_hdmi_platform_probe ENOMEM EPROBE_DEFER).

Lemma hw_cons c l :
  runtime_calls (c :: l)
  = match c with runtime r => [r] | _ => [] end ++ runtime_calls l.
Proof. reflexivity. Qed.

Lemma hw_app a b :
  runtime_calls (a ++ b) = runtime_calls a ++ runtime_calls b.
Proof. unfold runtime_calls. apply flat_map_app. Qed.

Lemma hw_map t : runtime_calls (map runtime t) = t.
Proof.
  induction t as [| c t IH]; [reflexivity |].
  rewrite map_cons, hw_cons, IH. reflexivity.
Qed.

Lemma released_app a b :
  Log.released (a ++ b) = Log.released a ++ Log.released b.
Proof. unfold Log.released. apply flat_map_app. Qed.

Lemma acquired_app a b :
  Log.acquired (a ++ b) = Log.acquired a ++ Log.acquired b.
Proof. unfold Log.acquired. apply flat_map_app. Qed.

Lemma acquired_of_release p : Log.acquired (of_release_calls p) = [].
Proof.
  unfold of_release_calls.
  destruct (negb (is_null (i2c_bus p))), (negb (is_null (vtc_bridge p)));
    reflexivity.
Qed.

Lemma of_release_calls_template t p :
  of_release_calls (set_dma_template t p) = of_release_calls p.
Proof. reflexivity. Qed.

Lemma of_release_calls_drm_dev d p :
  of_release_calls (set_drm_dev d p) = of_release_calls p.
Proof. reflexivity. Qed.

Lemma suffix_here (S : list setup_call) : exists pre, S = pre ++ S.
Proof. exists []. reflexivity. Qed.

Lemma suffix_cons (a : setup_call) l S :
  (exists pre, l = pre ++ S) -> exists pre, a :: l = pre ++ S.
Proof. intros (pre & ->). exists (a :: pre). reflexivity. Qed.

Lemma suffix_app (b l S : list setup_call) :
  (exists pre, l = pre ++ S) -> exists pre, b ++ l = pre ++ S.
Proof. intros (pre & ->). exists (b ++ pre). apply app_assoc. Qed.

Local Ltac go :=
  cbn -[Drv.digilent_hdmi_of_release Drv.digilent_hdmi_parse_of
        of_release_calls runtime_calls built torn Log.count];
  rewrite ?DrvSpec.of_release_run;
  cbn -[Drv.digilent_hdmi_of_release Drv.digilent_hdmi_parse_of
        of_release_calls runtime_calls built torn Log.count].

Local Ltac on_rc x tac :=
  destruct (Z.eqb_spec x 0) as [-> | ?]; go; [tac | ].

Local Ltac probe_cases k :=
  unfold digilent_hdmi_platform_probe, create_fail,
    digilent_hdmi_crtc_create, digilent_hdmi_encoder_create,
    digilent_hdmi_connector_create;
  let pa := fresh "pa" in let da := fresh "da" in let ta := fresh "ta" in
  let pi := fresh "pi" in let ci := fresh "ci" in let ei := fresh "ei" in
  let cni := fresh "cni" in let cr := fresh "cr" in let ae := fresh "ae" in
  let dr := fresh "dr" in
  let rc0 := fresh "rc0" in let p1 := fresh "p1" in let t1 := fresh "t1" in
  destruct k as [pa da ta pi ci ei cni cr ae dr];
  cbn [private_alloc dev_alloc template_alloc plane_init crtc_init
       encoder_init connector_init connector_register attach_encoder
       dev_register] in *;
  unfold sbind, emit, error, smodify, sret, sget, lift,
    sresult, sfinal, scalls;
  destruct pa; go;
  [ match goal with
    | |- context [Drv.digilent_hdmi_parse_of ?e ?d ?z] =>
        destruct (Drv.digilent_hdmi_parse_of e d z) as [[rc0 p1] t1]
    end;
    destruct (Z.eqb_spec rc0 0) as [-> | ?]; go;
    [ let chain :=
        (destruct ta; go;
         [ on_rc pi ltac:(on_rc ci ltac:(on_rc ei ltac:(on_rc cni
             ltac:(on_rc cr ltac:(on_rc ae ltac:(on_rc dr idtac))))))
         | ]) in
      destruct da; go; [chain | | chain]
    | ]
  | ].

Lemma released_cons c l :
  Log.released (c :: l) = Log.releases c ++ Log.released l.
Proof. reflexivity. Qed.

Lemma acquired_cons c l :
  Log.acquired (c :: l) = Log.acquires c ++ Log.acquired l.
Proof. reflexivity. Qed.

Local Ltac fix_rc :=
  try (match goal with
       | |- context [negb (?x =? 0)] =>
           destruct (Z.eqb_spec x 0) as [? | ?]; [exfalso; lia | go]
       end).

Local Ltac norm_ok Hok :=
  unfold core_ok in Hok;
  cbn [private_alloc dev_alloc template_alloc plane_init crtc_init
       encoder_init connector_init connector_register attach_encoder
       dev_register IS_ERR negb andb Z.eqb] in Hok;
  repeat match goal with
         | Hne : ?x <> 0 |- _ =>
             rewrite (proj2 (Z.eqb_neq x 0) Hne) in Hok
         end;
  cbn [andb] in Hok; rewrite ?andb_false_r in Hok.

(** The parse facts, by the value of [of_ok]. *)
Local Ltac use_parse Hparse :=
  cbn [result calls final fst snd] in Hparse;
  let Ht := fresh "Ht" in let Hf := fresh "Hf" in
  destruct Hparse as [Ht Hf];
  match goal with
  | |- context [of_ok ?pdev] =>
      destruct (of_ok pdev);
      [ destruct (Ht eq_refl) as (? & ? & ? & ? & ? & ?); clear Ht Hf
      | destruct (Hf eq_refl) as (? & ?); clear Ht Hf ]
  end.

Local Ltac norm_hw :=
  rewrite ?of_release_calls_template, ?of_release_calls_drm_dev;
  repeat (rewrite hw_cons || rewrite hw_app || rewrite hw_map);
  change (runtime_calls []) with (@nil call);
  cbn [app]; rewrite ?app_nil_r;
  repeat (rewrite released_app || rewrite acquired_app
          || rewrite released_cons || rewrite acquired_cons);
  rewrite ?acquired_of_release;
  cbn [Log.releases Log.acquires app];
  change (Log.released []) with (@nil Log.resource);
  change (Log.acquired []) with (@nil Log.resource);
  rewrite ?app_nil_r.

Lemma construction_cons c l :
  construction (c :: l)
  = match c with runtime _ => [] | _ => [c] end ++ construction l.
Proof. destruct c; reflexivity. Qed.

Lemma construction_app a b :
  construction (a ++ b) = construction a ++ construction b.
Proof. unfold construction. apply filter_app. Qed.

Lemma construction_map t : construction (map runtime t) = [].
Proof.
  induction t as [| c t IH]; [reflexivity |].
  rewrite map_cons, construction_cons, IH. reflexivity.
Qed.

Local Ltac norm_construction :=
  repeat (rewrite construction_cons || rewrite construction_app
          || rewrite construction_map);
  change (construction []) with (@nil setup_call);
  cbn [app]; rewrite ?app_nil_r.

Local Ltac close_hw :=
  try match goal with
      | Ha : Log.released ?t = [] |- _ => rewrite Ha
      end;
  try match goal with
      | Hb : Log.released (of_release_calls _) = _ |- _ => rewrite Hb
      end;
  try match goal with
      | Hc : Log.acquired ?t = _ :: _ |- _ => rewrite ?Hc
      end;
  cbn [app]; try reflexivity; try assumption.

Local Ltac find_suffix :=
  repeat first [ apply suffix_here | apply suffix_cons | apply suffix_app ].

(** The probe, case by case: what it returns, what hardware resources it
    holds at the end, and what it constructed. *)
Lemma probe_summary (pdev : Drv.platform_device) (k : drm_core)
  (p0 : digilent_hdmi_private) :
  0 < ENOMEM -> 0 < EPROBE_DEFER -> errors_nonzero pdev k ->
  let r := probe pdev k p0 in
  let hw := runtime_calls (scalls r) in
  let made := construction (scalls r) in
  (sresult r = 0 <-> core_ok k && of_ok pdev = true)
  /\ (sresult r <> 0 -> Log.released hw = rev (Log.acquired hw))
  /\ (sresult r = 0 ->
      Log.released hw = []
      /\ Log.acquired hw
         = Log.dma_channel (Drv.pd_dma pdev)
           :: bridge_of pdev ++ adapter_of pdev
      /\ Log.released (of_release_calls (sfinal r)) = rev (Log.acquired hw)
      /\ drm_dev (sfinal r) = dev_alloc k
      /\ built made
         = [the_template; the_plane; the_crtc; the_encoder; the_connector;
            the_registration]
      /\ torn made = []
      /\ last made (devm_kzalloc false)
         = drm_fbdev_generic_setup (dev_alloc k) 32)
  /\ (sresult r <> 0 -> existsb is_fbdev_setup made = false)
  /\ (existsb is_register made = true ->
      built made
      = [the_template; the_plane; the_crtc; the_encoder; the_connector;
         the_registration]
      /\ torn made = [])
  /\ (private_alloc k = true -> of_ok pdev = true ->
      IS_ERR (dev_alloc k) = false ->
      filter is_limits made
      = [mode_config_limits 0 0
           (C.to_int (OfLog.limit_or pdev "hmax" Drv.DIGILENT_ENC_MAX_H))
           (C.to_int (OfLog.limit_or pdev "vmax" Drv.DIGILENT_ENC_MAX_V))])
  /\ (private_alloc k = true -> of_ok pdev = true ->
      IS_ERR (dev_alloc k) = false -> sresult r <> 0 ->
      exists pre,
        scalls r
        = pre ++ drm_mode_config_cleanup (dev_alloc k)
                 :: map runtime (of_release_calls (sfinal r)))
  /\ (private_alloc k = true -> of_ok pdev = true ->
      IS_ERR (dev_alloc k) = false ->
      filter is_poll made = [drm_kms_helper_poll_init (dev_alloc k)]
      /\ (sresult r = 0 -> filter is_config_cleanup made = [])
      /\ (sresult r <> 0 ->
          filter is_config_cleanup made
          = [drm_mode_config_cleanup (dev_alloc k)])).
Proof.
  intros HEN HEP (Hclk & Hdma & Hdev).
  pose proof (OfSpec.parse_of_outcome EPROBE_DEFER pdev Drv.zero_private
                HEP eq_refl eq_refl Hclk Hdma) as Hparse.
  cbv zeta in Hparse. cbv zeta.
  remember (core_ok k) as ok eqn:Hok.
  probe_cases k.
  all: fix_rc.
  all: norm_ok Hok; subst ok.
  all: try (cbn [IS_ERR PTR_ERR] in Hdev; specialize (Hdev eq_refl)).
  all: try use_parse Hparse.
  all: rewrite ?app_nil_r.
  all: norm_hw; norm_construction.
  all: rewrite ?of_release_calls_template, ?of_release_calls_drm_dev.
  all: repeat match goal with
              | Hh : hmax ?p = _ |- context [hmax ?p] => rewrite Hh
              | Hv : vmax ?p = _ |- context [vmax ?p] => rewrite Hv
              end.
  all: split; [split; intros; try reflexivity; try discriminate;
               try lia; try congruence; try contradiction |].
  all: split; [intros; try (exfalso; lia); close_hw |].
  all: split; [intros; try (exfalso; lia);
               repeat (split; [close_hw |]); try reflexivity |].
  all: split; [intros; try (exfalso; lia); reflexivity |].
  all: split; [intros; try discriminate; split; reflexivity |].
  all: split; [intros; try discriminate; try (exfalso; lia);
               try reflexivity |].
  all: split; [intros; try discriminate; try (exfalso; lia);
               try find_suffix |].
  all: intros; try discriminate; try (exfalso; lia).
  all: split; [reflexivity |].
  all: split; intros; try (exfalso; lia); reflexivity.
Qed.

Lemma remove_run p :
  Drv.digilent_hdmi_platform_remove p
  = (0, p, of_release_calls p
           ++ [drm_atomic_helper_shutdown (drm_dev p);
               drm_put_dev (drm_dev p)]).
Proof.
  unfold Drv.digilent_hdmi_platform_remove, bind at 1. unfold get at 1.
  unfold bind at 1. rewrite DrvSpec.of_release_run. reflexivity.
Qed.

(** The probe returns 0 exactly when the OF parse and every construction
    step succeed.  Whenever it fails, at whatever step, it holds no hardware
    resource at the end: what it releases is exactly what it acquired (DMA
    channel, timing bridge, I2C adapter), in reverse order.  When it
    succeeds it has released nothing and holds the channel and whichever of
    the bridge and the adapter the device tree names. *)
Theorem probe_unwinds (pdev : Drv.platform_device) (k : drm_core)
  (p0 : digilent_hdmi_private) :
  0 < ENOMEM -> 0 < EPROBE_DEFER -> errors_nonzero pdev k ->
  let r := probe pdev k p0 in
  let hw := runtime_calls (scalls r) in
  (sresult r = 0 <-> core_ok k && of_ok pdev = true)
  /\ (sresult r <> 0 -> Log.released hw = rev (Log.acquired hw))
  /\ (sresult r = 0 ->
      Log.released hw = []
      /\ Log.acquired hw
         = Log.dma_channel (Drv.pd_dma pdev)
           :: bridge_of pdev ++ adapter_of pdev).
Proof.
  intros HEN HEP Herr.
  destruct (probe_summary pdev k p0 HEN HEP Herr)
    as (Hiff & Hfail & Hok & _).
  cbv zeta. split; [exact Hiff |]. split; [exact Hfail |].
  intros H0. destruct (Hok H0) as (Hrel & Hacq & _). split; assumption.
Qed.

(** A successful probe constructs the template, the plane, the CRTC, the
    encoder and the connector and registers the connector, in this order,
    tears none of them down, and ends with the fbdev setup on the device it
    allocated; a failing probe never sets up the fbdev.  The device is
    registered only once all of them are constructed.  Whenever the DRM
    device is allocated, its mode-config size limits are 0x0 to the [hmax]
    and [vmax] of the device tree (1920 and 1080 when absent), as [int]. *)
Theorem probe_constructs_in_order (pdev : Drv.platform_device)
  (k : drm_core) (p0 : digilent_hdmi_private) :
  0 < ENOMEM -> 0 < EPROBE_DEFER -> errors_nonzero pdev k ->
  let r := probe pdev k p0 in
  let made := construction (scalls r) in
  let everything :=
    [the_template; the_plane; the_crtc; the_encoder; the_connector;
     the_registration] in
  (sresult r = 0 ->
   built made = everything /\ torn made = []
   /\ last made (devm_kzalloc false)
      = drm_fbdev_generic_setup (dev_alloc k) 32
   /\ drm_dev (sfinal r) = dev_alloc k)
  /\ (sresult r <> 0 -> existsb is_fbdev_setup made = false)
  /\ (existsb is_register made = true ->
      built made = everything /\ torn made = [])
  /\ (private_alloc k = true -> of_ok pdev = true ->
      IS_ERR (dev_alloc k) = false ->
      filter is_limits made
      = [mode_config_limits 0 0
           (C.to_int (OfLog.limit_or pdev "hmax" Drv.DIGILENT_ENC_MAX_H))
           (C.to_int (OfLog.limit_or pdev "vmax" Drv.DIGILENT_ENC_MAX_V))]).
Proof.
  intros HEN HEP Herr.
  destruct (probe_summary pdev k p0 HEN HEP Herr)
    as (_ & _ & Hok & Hnofb & Hreg & Hlim & _ & _).
  cbv zeta. split.
  - intros H0. destruct (Hok H0) as (_ & _ & _ & Hdev & Hb & Ht & Hl).
    repeat split; assumption.
  - split; [exact Hnofb |]. split; [exact Hreg | exact Hlim].
Qed.

(** When the probe fails after the DRM device was allocated, its last calls
    are [drm_mode_config_cleanup] on that device followed by the release
    of the hardware resources: the DRM objects are cleaned up before the
    channel and the bridge they use are given back. *)
Theorem probe_failure_cleans_then_releases (pdev : Drv.platform_device)
  (k : drm_core) (p0 : digilent_hdmi_private) :
  0 < ENOMEM -> 0 < EPROBE_DEFER -> errors_nonzero pdev k ->
  private_alloc k = true -> of_ok pdev = true ->
  IS_ERR (dev_alloc k) = false ->
  let r := probe pdev k p0 in
  sresult r <> 0 ->
  exists pre,
    scalls r
    = pre ++ drm_mode_config_cleanup (dev_alloc k)
             :: map runtime (of_release_calls (sfinal r)).
Proof.
  intros HEN HEP Herr Hpa Hof Hdev.
  destruct (probe_summary pdev k p0 HEN HEP Herr)
    as (_ & _ & _ & _ & _ & _ & Hlast & _).
  cbv zeta. intros Hfail. exact (Hlast Hpa Hof Hdev Hfail).
Qed.

(** The probe starts output polling once, as soon as the DRM device is
    allocated, and never stops it: on the failure paths past that point it
    cleans up the mode configuration, once, but makes no call to
    [drm_kms_helper_poll_fini], the first of the two calls of the unload
    hook.  A successful probe cleans up nothing. *)
Theorem probe_failure_leaves_polling (pdev : Drv.platform_device)
  (k : drm_core) (p0 : digilent_hdmi_private) :
  0 < ENOMEM -> 0 < EPROBE_DEFER -> errors_nonzero pdev k ->
  private_alloc k = true -> of_ok pdev = true ->
  IS_ERR (dev_alloc k) = false ->
  let r := probe pdev k p0 in
  let made := construction (scalls r) in
  filter is_poll made = [drm_kms_helper_poll_init (dev_alloc k)]
  /\ (sresult r = 0 -> filter is_config_cleanup made = [])
  /\ (sresult r <> 0 ->
      filter is_config_cleanup made
      = [drm_mode_config_cleanup (dev_alloc k)])
  /\ scalls (digilent_hdmi_unload (dev_alloc k) p0)
     = [drm_kms_helper_poll_fini (dev_alloc k);
        drm_mode_config_cleanup (dev_alloc k)].
Proof.
  intros HEN HEP Herr Hpa Hof Hdev.
  destruct (probe_summary pdev k p0 HEN HEP Herr)
    as (_ & _ & _ & _ & _ & _ & _ & Hpoll).
  cbv zeta. destruct (Hpoll Hpa Hof Hdev) as (Hp & Hc0 & Hc1).
  split; [exact Hp |]. split; [exact Hc0 |]. split; [exact Hc1 |].
  reflexivity.
Qed.

(** Removing a device that was probed successfully gives back exactly the
    hardware resources the probe acquired, in the reverse order of their
    acquisition, and shuts down and puts the DRM device the probe
    allocated. *)
Theorem remove_undoes_probe (pdev : Drv.platform_device)
  (k : drm_core) (p0 : digilent_hdmi_private) :
  0 < ENOMEM -> 0 < EPROBE_DEFER -> errors_nonzero pdev k ->
  let r := probe pdev k p0 in
  let gone := Drv.digilent_hdmi_platform_remove (sfinal r) in
  sresult r = 0 ->
  Log.released (calls gone)
  = rev (Log.acquired (runtime_calls (scalls r)))
  /\ Log.acquired (calls gone) = []
  /\ filter (fun c => Log.is_shutdown c) (calls gone)
     = [drm_atomic_helper_shutdown (dev_alloc k)]
  /\ last (calls gone) (DRM_ERROR "") = drm_put_dev (dev_alloc k).
Proof.
  intros HEN HEP Herr.
  destruct (probe_summary pdev k p0 HEN HEP Herr) as (_ & _ & Hok & _).
  cbv zeta. intros H0.
  destruct (Hok H0) as (_ & _ & Hrel & Hdev & _).
  rewrite remove_run. unfold calls; cbn [snd].
  rewrite released_app, acquired_app, acquired_of_release, Hdev.
  cbn [Log.released Log.acquired flat_map Log.releases Log.acquires app].
  rewrite app_nil_r. split; [exact Hrel |]. split; [reflexivity |].
  split.
  - rewrite filter_app. cbn [filter Log.is_shutdown].
    assert (Hnone : filter (fun c => Log.is_shutdown c)
                      (of_release_calls (sfinal (probe pdev k p0))) = []).
    { unfold of_release_calls.
      destruct (negb (is_null (i2c_bus _))), (negb (is_null (vtc_bridge _)));
        reflexivity. }
    rewrite Hnone. reflexivity.
  - change [drm_atomic_helper_shutdown (dev_alloc k);
             drm_put_dev (dev_alloc k)]
      with ([drm_atomic_helper_shutdown (dev_alloc k)]
            ++ [drm_put_dev (dev_alloc k)]).
    rewrite app_assoc, last_last. reflexivity.
Qed.

End Errno.

Lemma example_errors_nonzero k :
  IS_ERR (dev_alloc k) = false ->
  errors_nonzero Examples.pdev_full k.
Proof.
  intros H. repeat split; intros E; try discriminate E.
  rewrite H in E. discriminate E.
Defined.

(** The full example platform with an encoder attachment that fails: the
    probe returns the error and gives back the adapter, the bridge and the
    channel. *)
Lemma probe_attach_fails :
  let r := digilent_hdmi_platform_probe SetupExamples.ENOMEM
             Examples.EPROBE_DEFER Examples.pdev_full
             SetupExamples.core_attach_fails Examples.board in
  sresult r = -22
  /\ Log.released (runtime_calls (scalls r))
     = [Log.capability_channel (PTR 3); Log.timing_bridge (PTR 2);
        Log.dma_channel (PTR 1)].
Proof.
  intros r.
  destruct (probe_unwinds SetupExamples.ENOMEM Examples.EPROBE_DEFER
              Examples.pdev_full SetupExamples.core_attach_fails
              Examples.board eq_refl eq_refl
              (example_errors_nonzero SetupExamples.core_attach_fails eq_refl))
    as (_ & Hfail & _).
  subst r. split; [reflexivity |].
  rewrite Hfail; [reflexivity | intros E; vm_compute in E; discriminate E].
Defined.

(** The full example platform with every step succeeding. *)
Lemma probe_full_board :
  let r := digilent_hdmi_platform_probe SetupExamples.ENOMEM
             Examples.EPROBE_DEFER Examples.pdev_full
             SetupExamples.core_fine Examples.board in
  sresult r = 0
  /\ built (construction (scalls r))
     = [the_template; the_plane; the_crtc; the_encoder; the_connector;
        the_registration]
  /\ filter is_limits (construction (scalls r))
     = [mode_config_limits 0 0 1920 1080].
Proof.
  intros r.
  destruct (probe_constructs_in_order SetupExamples.ENOMEM
              Examples.EPROBE_DEFER Examples.pdev_full
              SetupExamples.core_fine Examples.board eq_refl eq_refl
              (example_errors_nonzero SetupExamples.core_fine eq_refl))
    as (Hok & _ & _ & Hlim).
  subst r. split; [reflexivity |].
  destruct (Hok eq_refl) as (Hbuilt & _).
  split; [exact Hbuilt |]. exact (Hlim eq_refl eq_refl eq_refl).
Defined.

(** The failed attachment again: the log ends with the cleanup of the mode
    configuration of device 5 and then the three releases. *)
Lemma probe_attach_fails_tail :
  exists pre,
    scalls (digilent_hdmi_platform_probe SetupExamples.ENOMEM
              Examples.EPROBE_DEFER Examples.pdev_full
              SetupExamples.core_attach_fails Examples.board)
    = pre ++ [drm_mode_config_cleanup (PTR 5);
              runtime (i2c_put_adapter (PTR 3));
              runtime (of_xlnx_bridge_put (PTR 2));
              runtime (dma_release_channel (PTR 1))].
Proof.
  exact (probe_failure_cleans_then_releases SetupExamples.ENOMEM
           Examples.EPROBE_DEFER Examples.pdev_full
           SetupExamples.core_attach_fails Examples.board eq_refl eq_refl
           (example_errors_nonzero SetupExamples.core_attach_fails eq_refl) eq_refl eq_refl eq_refl
           ltac:(intros E; vm_compute in E; discriminate E)).
Defined.

(** The failed attachment once more: polling was started on device 5 and
    is not stopped. *)
Lemma probe_attach_fails_polling :
  filter is_poll
    (construction
       (scalls (digilent_hdmi_platform_probe SetupExamples.ENOMEM
                  Examples.EPROBE_DEFER Examples.pdev_full
                  SetupExamples.core_attach_fails Examples.board)))
  = [drm_kms_helper_poll_init (PTR 5)].
Proof.
  exact (proj1 (probe_failure_leaves_polling SetupExamples.ENOMEM
                  Examples.EPROBE_DEFER Examples.pdev_full
                  SetupExamples.core_attach_fails Examples.board
                  eq_refl eq_refl
                  (example_errors_nonzero SetupExamples.core_attach_fails
                     eq_refl)
                  eq_refl eq_refl eq_refl)).
Defined.

(** Probe, then remove, on the full example platform. *)
Lemma remove_after_full_probe :
  let r := digilent_hdmi_platform_probe SetupExamples.ENOMEM
             Examples.EPROBE_DEFER Examples.pdev_full
             SetupExamples.core_fine Examples.board in
  Log.released (calls (Drv.digilent_hdmi_platform_remove (sfinal r)))
  = [Log.capability_channel (PTR 3); Log.timing_bridge (PTR 2);
     Log.dma_channel (PTR 1)].
Proof.
  intros r.
  destruct (remove_undoes_probe SetupExamples.ENOMEM Examples.EPROBE_DEFER
              Examples.pdev_full SetupExamples.core_fine Examples.board
              eq_refl eq_refl (example_errors_nonzero SetupExamples.core_fine eq_refl) eq_refl)
    as (Hrel & _).
  subst r. rewrite Hrel. reflexivity.
Defined.

End ProbeSpec.
